(** * Python_to_JSON_script: rule parsing and painless-script generation

    A shallow embedding of [src/main.py] ([build_painless_script] and its
    inner function [parse_rules]) and the properties of the specification
    that were checked against it.

    Modelling conventions.
    - A Python [str] is a [string]; a character is an [ascii], read as the
      code point of the same number (code points 0..255).  [is_space] and
      [lower_char] are Python's [str.isspace] and [str.lower] on that range.
    - The two regular expressions of [parse_rules] are kept as data
      ([col_pattern], [val_pattern]) and run by a small backtracking matcher
      with the semantics of [re.search]: leftmost start, greedy repetition,
      first success wins.
    - The spreadsheet read by pandas is a list of rows of cells; exceptions
      are values of [exn]; the single file write is recorded in the result.
    - The arithmetic of the reduce script is IEEE 754: binary64 for
      [double], binary32 for [float], round to nearest even. *)

From Stdlib Require Import Strings.String Strings.Ascii.
From Stdlib Require Import Lists.List Bool.Bool Arith.Arith Arith.PeanoNat.
From Stdlib Require Import ZArith.ZArith Floats.SpecFloat Lia.
Import ListNotations.

Local Close Scope Z_scope.
Local Open Scope nat_scope.
Local Open Scope bool_scope.
Local Open Scope string_scope.

(** ** Python string primitives *)

Module Py.

(** [str.isspace] on one character, for code points below 256:
    TAB, LF, VT, FF, CR, FS, GS, RS, US, SPACE, NEL and NBSP. *)
Definition is_space (c : ascii) : bool :=
  let n := nat_of_ascii c in
  (((9 <=? n) && (n <=? 13)) || ((28 <=? n) && (n <=? 32))
   || (n =? 133) || (n =? 160))%nat.

(** [str.lower] on one character, for code points below 256:
    A-Z and the Latin-1 capitals (all of 192..222 but the sign 215). *)
Definition lower_char (c : ascii) : ascii :=
  let n := nat_of_ascii c in
  if (((65 <=? n) && (n <=? 90))
      || ((192 <=? n) && (n <=? 222) && negb (n =? 215)))%nat
  then ascii_of_nat (n + 32) else c.

(** [s.lower()] *)
Fixpoint lower (s : string) : string :=
  match s with
  | EmptyString => EmptyString
  | String c s' => String (lower_char c) (lower s')
  end.

(** [s.lstrip()] *)
Fixpoint lstrip (s : string) : string :=
  match s with
  | EmptyString => EmptyString
  | String c s' => if is_space c then lstrip s' else s
  end.

(** [s.rstrip()]: a character is kept when something that is not
    whitespace follows it or it is not whitespace itself. *)
Fixpoint rstrip (s : string) : string :=
  match s with
  | EmptyString => EmptyString
  | String c s' =>
      match rstrip s' with
      | EmptyString => if is_space c then EmptyString else String c EmptyString
      | r => String c r
      end
  end.

(** [s.strip()] *)
Definition strip (s : string) : string := rstrip (lstrip s).

(** [sub in s] *)
Fixpoint str_in (sub s : string) : bool :=
  if String.prefix sub s then true
  else match s with
       | EmptyString => false
       | String _ s' => str_in sub s'
       end.

(** [s.split("\n")]: never empty, one more piece than there are line feeds. *)
Definition LF : ascii := ascii_of_nat 10.

Fixpoint split_lines (s : string) : list string :=
  match s with
  | EmptyString => [EmptyString]
  | String c s' =>
      if Ascii.eqb c LF then EmptyString :: split_lines s'
      else match split_lines s' with
           | [] => [String c EmptyString]
           | l :: ls => String c l :: ls
           end
  end.

(** [sep.join(parts)] *)
Definition join (sep : string) (parts : list string) : string :=
  String.concat sep parts.

(** Truthiness of a [str]: [not s] holds for the empty string only. *)
Definition truthy (s : string) : bool :=
  match s with EmptyString => false | _ => true end.

End Py.

(** ** The fragment of [re] used by [parse_rules] *)

Module Re.

(** One element of a pattern.  [Many p least] is a greedy repetition of a
    one-character class: [p*] when [least] is [false], [p+] when it is
    [true].  [Open] and [Close] delimit group 1.  [Dollar] is [$] without
    [re.MULTILINE]: the end of the string, or just before a line feed that
    ends the string. *)
Inductive item : Type :=
| Chr (c : ascii)
| Many (p : ascii -> bool) (least : bool)
| Open
| Close
| Dollar.

Definition pattern := list item.

(** Matching state: whether group 1 is open, and its text so far. *)
Record capture : Type := { is_open : bool; text : string }.

Definition no_capture : capture := {| is_open := false; text := EmptyString |}.

Definition push (c : ascii) (k : capture) : capture :=
  if is_open k
  then {| is_open := true; text := text k ++ String c EmptyString |}
  else k.

Definition open_group (k : capture) : capture :=
  {| is_open := true; text := EmptyString |}.

Definition close_group (k : capture) : capture :=
  {| is_open := false; text := text k |}.

(** A greedy repetition of the class [p], followed by [rest]: it first tries
    to take one more character and falls back to [rest] at the current
    position when that fails; [enough] says whether stopping is allowed. *)
Fixpoint many (p : ascii -> bool)
    (rest : string -> capture -> option string)
    (enough : bool) (s : string) (k : capture) : option string :=
  let stop := if enough then rest s k else None in
  match s with
  | String a s' =>
      if p a
      then match many p rest true s' (push a k) with
           | Some r => Some r
           | None => stop
           end
      else stop
  | EmptyString => stop
  end.

(** [match_here pat s k]: match [pat] at the start of [s]; the result is
    [m.group(1)]. *)
Fixpoint match_here (pat : pattern) : string -> capture -> option string :=
  match pat with
  | [] => fun _ k => Some (text k)
  | Chr c :: pat' => fun s k =>
      match s with
      | String a s' =>
          if Ascii.eqb a c then match_here pat' s' (push a k) else None
      | EmptyString => None
      end
  | Many p least :: pat' => many p (match_here pat') (negb least)
  | Open :: pat' => fun s k => match_here pat' s (open_group k)
  | Close :: pat' => fun s k => match_here pat' s (close_group k)
  | Dollar :: pat' => fun s k =>
      match s with
      | EmptyString => match_here pat' s k
      | String a EmptyString =>
          if Ascii.eqb a Py.LF then match_here pat' s k else None
      | _ => None
      end
  end.

(** [re.search(pat, s)], reduced to group 1 of the match: the leftmost
    position at which the pattern matches. *)
Fixpoint search (pat : pattern) (s : string) : option string :=
  match match_here pat s no_capture with
  | Some r => Some r
  | None =>
      match s with
      | EmptyString => None
      | String _ s' => search pat s'
      end
  end.

(** A literal word as a pattern. *)
Fixpoint lit (w : string) : pattern :=
  match w with
  | EmptyString => []
  | String c w' => Chr c :: lit w'
  end.

End Re.

(** ** [parse_rules] *)

Definition dq : ascii := ascii_of_nat 34.

Definition not_dq (c : ascii) : bool := negb (Ascii.eqb c dq).

(** The pattern [column], one or more [\s], a double quote, group 1 made of
    one or more characters other than a double quote, a double quote. *)
Definition col_pattern : Re.pattern :=
  (Re.lit "column"
   ++ [Re.Many Py.is_space true; Re.Chr dq;
       Re.Open; Re.Many not_dq true; Re.Close; Re.Chr dq])%list.

(** The pattern: a double quote, group 1 made of one or more characters
    other than a double quote, a double quote, any [\s], [$]. *)
Definition val_pattern : Re.pattern :=
  [Re.Chr dq; Re.Open; Re.Many not_dq true; Re.Close; Re.Chr dq;
   Re.Many Py.is_space false; Re.Dollar].

(** The two f-strings of the loop. *)
Definition fmt_ne (col_name val : string) : string :=
  "params['_source']['" ++ col_name ++ "']!= '" ++ val ++ "'".

Definition fmt_eq (col_name val : string) : string :=
  "params['_source']['" ++ col_name ++ "'] == '" ++ val ++ "'".

(** The body of [for line in lines]: the list [conditions] after the
    iteration.  [continue] leaves the list as it is. *)
Definition loop_body (conditions : list string) (line : string)
  : list string :=
  let line := Py.strip line in
  if negb (Py.truthy line) then conditions
  else
    let col_match := Re.search col_pattern line in
    let val_match := Re.search val_pattern line in
    match col_match, val_match with
    | Some col_name, Some val =>
        if Py.str_in "exclude" (Py.lower line)
        then (conditions ++ [fmt_ne col_name val])%list
        else if Py.str_in "filter" (Py.lower line)
        then if Py.str_in "contain" (Py.lower line)
             then (conditions ++ [fmt_eq col_name val])%list
             else (conditions ++ [fmt_eq col_name val])%list
        else if Py.str_in "unfilter" (Py.lower line)
        then (conditions ++ [fmt_ne col_name val])%list
        else conditions
    | _, _ => conditions
    end.

(** [conditions] when the loop of [parse_rules] is over. *)
Definition conditions_of (rule_text : string) : list string :=
  let lines := Py.split_lines rule_text in
  fold_left loop_body lines [].

(** The three accumulator updates that follow the guard. *)
Definition updates : string :=
  "state.map.var += (doc['ColL Name'].value);"
  ++ "state.map.var1 += (doc['ColJ Name'].value);"
  ++ "state.map.var2++;}".

Definition parse_rules (rule_text : string) : string :=
  let conditions := conditions_of rule_text in
  let painless_condition := EmptyString in
  match conditions with
  | [] => painless_condition
  | _ :: _ =>
      let condition_chain :=
        "if(" ++ Py.join " && " conditions ++ "){" in
      condition_chain ++ updates
  end.

(** [map_script], the f-string with two spaces between the two pieces. *)
Definition map_script (numerator_text denominator_text : string) : string :=
  let numerator_conditions := parse_rules numerator_text in
  let denominator_conditions := parse_rules denominator_text in
  numerator_conditions ++ "  " ++ denominator_conditions.

Definition quoted (s : string) : string :=
  String dq (s ++ String dq EmptyString).


(** ** The spreadsheet, exceptions and the output document *)

(** A cell as [pd.read_excel(..., header=None)] returns it: text, an empty
    cell (NaN), or any other value, given by what [str] prints for it. *)
Inductive cell : Type :=
| CText (s : string)
| CNaN
| COther (printed : string).

(** [str(c)] *)
Definition py_str (c : cell) : string :=
  match c with
  | CText s => s
  | CNaN => "nan"
  | COther printed => printed
  end.

(** A frame is the list of its rows; column [j] of a row is its [j]-th
    cell, and asking for a column that is not there raises [KeyError].
    The frames that pandas returns are rectangular: every row has as many
    cells as the sheet has columns ([width_is]), a short row of the sheet
    being filled with empty cells. *)
Definition DataFrame : Type := list (list cell).

Definition width_is (n : nat) (df : DataFrame) : bool :=
  forallb (fun row => (List.length row =? n)%nat) df.

Inductive exn : Type :=
| FileNotFoundError (msg : string)
| KeyError (column : nat)
| TypeError
| ValueError (msg : string).

Inductive result (A : Type) : Type :=
| Ok (a : A)
| Raise (e : exn).
Arguments Ok {A} a.
Arguments Raise {A} e.

Definition bind {A B : Type} (m : result A) (f : A -> result B) : result B :=
  match m with
  | Ok a => f a
  | Raise e => Raise e
  end.

Notation "x <- m ;; f" := (bind m (fun x => f))
  (at level 61, m at next level, right associativity).

(** [json.dump] receives a tree of dicts, lists, strings, ints and bools. *)
#[local] Set Warnings "-register-all".
Inductive json : Type :=
| JStr (s : string)
| JInt (z : Z)
| JBool (b : bool)
| JList (l : list json)
| JDict (l : list (string * json)).

(** What the function can see and change: the workbooks on disk, by path,
    and the JSON files written so far (the latest first). *)
Record world : Type := {
  workbooks : string -> option DataFrame;
  json_files : list (string * json)
}.

(** ** [build_painless_script] *)

(** [df[0] = df[0].astype(str).str.strip().str.lower()].  An empty cell
    stays empty: [astype(str)] and the string methods leave a missing
    value as it is (pandas 3; earlier versions print it as the text nan). *)
Definition normalize_row (row : list cell) : result (list cell) :=
  match row with
  | [] => Raise (KeyError 0)
  | CNaN :: rest => Ok (CNaN :: rest)
  | c :: rest => Ok (CText (Py.lower (Py.strip (py_str c))) :: rest)
  end.

Fixpoint normalize_rows (rows : DataFrame) : result DataFrame :=
  match rows with
  | [] => Ok []
  | row :: rows' =>
      r <- normalize_row row ;;
      rs <- normalize_rows rows' ;;
      Ok (r :: rs)
  end.

Definition normalize_first_column (df : DataFrame) : result DataFrame :=
  match df with
  | [] => Raise (KeyError 0)
  | _ :: _ => normalize_rows df
  end.

(** [df.loc[i, j]] on row [i] *)
Definition loc (row : list cell) (j : nat) : result cell :=
  match nth_error row j with
  | Some c => Ok c
  | None => Raise (KeyError j)
  end.

(** The two placeholders, [None] until a row sets them. *)
Record texts : Type := {
  numerator_text : option string;
  denominator_text : option string
}.

Definition no_texts : texts :=
  {| numerator_text := None; denominator_text := None |}.

(** The body of [for i in range(len(df))].  The test [in] needs a string
    on its right: on an empty first cell, a float, it raises [TypeError]. *)
Definition scan_row (t : texts) (row : list cell) : result texts :=
  first_col <- loc row 0 ;;
  match first_col with
  | CNaN => Raise TypeError
  | _ =>
      let first_col := py_str first_col in
      if Py.str_in "numerator" first_col
      then
        c <- loc row 1 ;;
        Ok {| numerator_text := Some (Py.strip (py_str c));
              denominator_text := denominator_text t |}
      else if Py.str_in "denominator" first_col
      then
        c <- loc row 1 ;;
        Ok {| numerator_text := numerator_text t;
              denominator_text := Some (Py.strip (py_str c)) |}
      else Ok t
  end.

Fixpoint scan (t : texts) (df : DataFrame) : result texts :=
  match df with
  | [] => Ok t
  | row :: df' => t' <- scan_row t row ;; scan t' df'
  end.

(** [not x] for a placeholder: [None] and the empty string are false. *)
Definition unset (x : option string) : bool :=
  match x with
  | None => true
  | Some s => negb (Py.truthy s)
  end.

(** The messages are kept without the sign that starts them in the source
    (a code point above 255). *)
Definition missing_rules_msg : string :=
  "Missing Numerator or Denominator rules in Excel.".

(** The check after the loop; the texts it lets through. *)
Definition require_both (t : texts) : result (string * string) :=
  if unset (numerator_text t) || unset (denominator_text t)
  then Raise (ValueError missing_rules_msg)
  else match numerator_text t, denominator_text t with
       | Some n, Some d => Ok (n, d)
       | _, _ => Raise (ValueError missing_rules_msg)
       end.

Definition init_script : string :=
  "state['map'] =['var': 0.0,'var1' : 0.0,'var2' : 0.0]".

Definition reduce_script : string :=
  "def return_map = ['Final_Performance': 0.0,'Final_Numerator': 0.0, 'Final_Denominator': 0.0]; "
  ++ "def new_map = ['num1': 0.0, 'num2': 0.0, 'num3': 0.0, 'num': 0.0, 'den': 0.0]; "
  ++ "for(a in states){new_map.num1 += (a.map.var); new_map.num2 += (a.map.var1); new_map.num3 += (a.map.var2); "
  ++ "new_map.num = (new_map.num1*((new_map.num2/new_map.num3)*100))/100.00; new_map.den += a.map.var;} "
  ++ "if(new_map.den!=0){return_map.Final_Performance = Math.floor((float)(new_map.num)/(new_map.den)*10000.0)/100.0}"
  ++ "else{return_map.Final_Performance ='';return_map.SL_Met=5;}"
  ++ "return_map.Final_Denominator = new_map.den;"
  ++ "return_map.Final_Numerator = new_map.num; return return_map;".

Definition combine_script : string := "return state".

(** The dict [painless_script]. *)
Definition painless_script (map_script : string) : json :=
  JDict [
    ("aggs", JDict [
      ("group_by_sl_met", JDict [
        ("scripted_metric", JDict [
          ("map_script", JStr map_script);
          ("init_script", JStr init_script);
          ("reduce_script", JStr reduce_script);
          ("combine_script", JStr combine_script)
        ])
      ])
    ]);
    ("size", JInt 0);
    ("query", JDict [
      ("bool", JDict [
        ("must", JList [
          JDict [("match", JDict [("childslaId", JStr "childSLAId")])];
          JDict [("match", JDict [("useInComputation", JBool true)])]
        ])
      ])
    ])
  ].

(** Everything before the file is opened for writing: the document, or the
    exception that ends the call. *)
Definition generate (w : world) (rules_excel : string) : result json :=
  match workbooks w rules_excel with
  | None => Raise (FileNotFoundError ("Excel file not found: " ++ rules_excel))
  | Some df =>
      df <- normalize_first_column df ;;
      t <- scan no_texts df ;;
      nd <- require_both t ;;
      let '(numerator_text, denominator_text) := nd in
      Ok (painless_script (map_script numerator_text denominator_text))
  end.

(** The whole call: the exception raised, if any, and the world after it.
    The only write is [json.dump] at the end. *)
Definition build_painless_script (w : world) (rules_excel output_json : string)
  : option exn * world :=
  match generate w rules_excel with
  | Raise e => (Some e, w)
  | Ok doc =>
      (None, {| workbooks := workbooks w;
                json_files := (output_json, doc) :: json_files w |})
  end.

(** ** Reading the generated scripts *)

(** Positions (from 0) at which [sub] occurs in [s]. *)
Fixpoint occurrences_from (i : nat) (sub s : string) : list nat :=
  let here := if String.prefix sub s then [i] else [] in
  match s with
  | EmptyString => here
  | String _ s' => (here ++ occurrences_from (S i) sub s')%list
  end.

Definition occurrences (sub s : string) : list nat :=
  occurrences_from 0 sub s.

(** [s[i:]] and [s[i:j]] *)
Fixpoint drop (i : nat) (s : string) : string :=
  match i, s with
  | S i', String _ s' => drop i' s'
  | _, _ => s
  end.

Definition slice (i j : nat) (s : string) : string :=
  String.substring i (j - i) s.

(** Some occurrence of [test] starts before the first occurrence of
    [expr]. *)
Definition tested_before (test expr script : string) : bool :=
  match occurrences expr script with
  | [] => false
  | e :: _ => existsb (fun t => (t <? e)%nat) (occurrences test script)
  end.

(** The arithmetic of a painless expression. *)
Module Painless.

Inductive expr : Type :=
| Name (x : string)
| Num (digits : string)
| Paren (e : expr)
| CastFloat (e : expr)
| Div (a b : expr)
| Mul (a b : expr)
| Floor (e : expr).

(** The text of an expression; [Div] and [Mul] group to the left, as the
    language reads them, and a cast binds tighter than both. *)
Fixpoint show (e : expr) : string :=
  match e with
  | Name x => x
  | Num digits => digits
  | Paren e => "(" ++ show e ++ ")"
  | CastFloat e => "(float)" ++ show e
  | Div a b => show a ++ "/" ++ show b
  | Mul a b => show a ++ "*" ++ show b
  | Floor e => "Math.floor(" ++ show e ++ ")"
  end.

(** A number is a [float] (binary32) or a [double] (binary64). *)
Inductive value : Type :=
| F32 (x : spec_float)
| F64 (x : spec_float).

Definition double_of_Z (z : Z) : spec_float :=
  binary_normalize 53 1024 z 0 false.

(** The narrowing conversion of a [double] to [float], by rounding. *)
Definition to_float (x : spec_float) : spec_float :=
  match x with
  | S754_finite s m e => binary_round 24 128 s m e
  | _ => x
  end.

(** The widening conversion of a [float] to [double], which is exact. *)
Definition to_double (x : spec_float) : spec_float :=
  match x with
  | S754_finite s m e => binary_round 53 1024 s m e
  | _ => x
  end.

Definition as_double (v : value) : spec_float :=
  match v with
  | F32 x => to_double x
  | F64 x => x
  end.

(** [Math.floor] on a [double]. *)
Definition floor (x : spec_float) : spec_float :=
  match x with
  | S754_finite s m e =>
      if (0 <=? e)%Z then x
      else match Z.shiftr (cond_Zopp s (Zpos m)) (- e) with
           | Z0 => S754_zero s
           | n => binary_normalize 53 1024 n 0 false
           end
  | _ => x
  end.

(** A binary operation: on two [float]s in binary32, otherwise in
    binary64 after the promotion of the [float] operand. *)
Definition binary (op : Z -> Z -> spec_float -> spec_float -> spec_float)
    (a b : value) : value :=
  match a, b with
  | F32 x, F32 y => F32 (op 24 128 x y)%Z
  | _, _ => F64 (op 53 1024 (as_double a) (as_double b))%Z
  end.

Definition digit (c : ascii) : option Z :=
  let n := nat_of_ascii c in
  if ((48 <=? n) && (n <=? 57))%nat then Some (Z.of_nat (n - 48)) else None.

(** A decimal literal such as [10000.0], as the quotient of two integers. *)
Fixpoint decimal (s : string) (acc : Z) (scale : positive) (frac : bool)
  : option (Z * positive) :=
  match s with
  | EmptyString => Some (acc, scale)
  | String c s' =>
      if Ascii.eqb c "."%char
      then if frac then None else decimal s' acc scale true
      else match digit c with
           | Some d =>
               decimal s' (10 * acc + d)%Z
                       (if frac then (10 * scale)%positive else scale) frac
           | None => None
           end
  end.

(** The [double] of a decimal literal: the quotient, rounded once, of its
    digits by its power of ten (both below [2^53] in the literals read
    here, so that the quotient is the nearest [double]). *)
Definition literal (digits : string) : spec_float :=
  match decimal digits 0%Z 1%positive false with
  | Some (acc, scale) =>
      SFdiv 53 1024 (double_of_Z acc) (double_of_Z (Zpos scale))
  | None => S754_nan
  end.

(** Evaluation; the variables hold [double]s. *)
Fixpoint eval (env : string -> spec_float) (e : expr) : value :=
  match e with
  | Name x => F64 (env x)
  | Num digits => F64 (literal digits)
  | Paren e => eval env e
  | CastFloat e =>
      match eval env e with
      | F64 x => F32 (to_float x)
      | F32 x => F32 x
      end
  | Div a b => binary SFdiv (eval env a) (eval env b)
  | Mul a b => binary SFmul (eval env a) (eval env b)
  | Floor e => F64 (floor (as_double (eval env e)))
  end.

End Painless.

(** The right-hand side of the assignment to [Final_Performance] in the
    branch [new_map.den!=0] of [reduce_script]. *)
Definition final_performance_expr : Painless.expr :=
  Painless.Div
    (Painless.Floor
       (Painless.Mul
          (Painless.Div
             (Painless.CastFloat (Painless.Paren (Painless.Name "new_map.num")))
             (Painless.Paren (Painless.Name "new_map.den")))
          (Painless.Num "10000.0")))
    (Painless.Num "100.0").

(** The variables of the reduce script that the expression reads. *)
Definition reduce_env (num den : spec_float) (x : string) : spec_float :=
  if String.eqb x "new_map.num" then num
  else if String.eqb x "new_map.den" then den
  else S754_nan.

Definition final_performance (num den : spec_float) : spec_float :=
  Painless.as_double
    (Painless.eval (reduce_env num den) final_performance_expr).

(** The formula of the specification, in its own words:
    [floor(100.0 * num / den) / 100.0], on [double]s. *)
Definition spec_final_performance (num den : spec_float) : spec_float :=
  SFdiv 53 1024
    (Painless.floor
       (SFdiv 53 1024 (SFmul 53 1024 (Painless.double_of_Z 100) num) den))
    (Painless.double_of_Z 100).

(** ** Direct reading of the value pattern *)

(** The longest prefix of [s] whose characters satisfy [p], and the rest. *)
Fixpoint span (p : ascii -> bool) (s : string) : string * string :=
  match s with
  | EmptyString => (EmptyString, EmptyString)
  | String a s' =>
      if p a
      then let (run, rest) := span p s' in (String a run, rest)
      else (EmptyString, s)
  end.

Fixpoint all (p : ascii -> bool) (s : string) : bool :=
  match s with
  | EmptyString => true
  | String a s' => p a && all p s'
  end.

Fixpoint push_all (run : string) (k : Re.capture) : Re.capture :=
  match run with
  | EmptyString => k
  | String a run' => push_all run' (Re.push a k)
  end.

(** What [val_pattern] matches at the start of [s]: a double quote, the
    run of characters up to the next double quote (not empty), that double
    quote, and nothing but whitespace after it. *)
Definition val_here (s : string) : option string :=
  match s with
  | String a s1 =>
      if Ascii.eqb a dq
      then let (run, rest) := span not_dq s1 in
           match run, rest with
           | String _ _, String b s3 =>
               if Ascii.eqb b dq && all Py.is_space s3 then Some run else None
           | _, _ => None
           end
      else None
  | EmptyString => None
  end.

(** The number of double quotes of a string. *)
Fixpoint count_dq (s : string) : nat :=
  match s with
  | EmptyString => 0
  | String a s' => (if Ascii.eqb a dq then 1 else 0) + count_dq s'
  end.

(** What follows the last double quote of a string. *)
Fixpoint after_last_dq (s : string) : option string :=
  match s with
  | EmptyString => None
  | String a s' =>
      match after_last_dq s' with
      | Some t => Some t
      | None => if Ascii.eqb a dq then Some s' else None
      end
  end.


(** ** Rows by label *)

(** The row sets [numerator_text]: its first cell contains numerator. *)
Definition labels_numerator (row : list cell) : bool :=
  match row with
  | c :: _ => Py.str_in "numerator" (py_str c)
  | [] => false
  end.

(** The row sets [denominator_text]: its first cell contains denominator
    and the branch for numerator was not taken. *)
Definition labels_denominator (row : list cell) : bool :=
  match row with
  | c :: _ =>
      negb (Py.str_in "numerator" (py_str c))
      && Py.str_in "denominator" (py_str c)
  | [] => false
  end.

(** ** Rows and frames, for the properties of the scan *)

(** The first column assignment on one row that has a first cell. *)
Definition normalized (row : list cell) : list cell :=
  match row with
  | [] => []
  | CNaN :: rest => CNaN :: rest
  | c :: rest => CText (Py.lower (Py.strip (py_str c))) :: rest
  end.

(** The row is taken by one of the two branches of the loop. *)
Definition labelled (row : list cell) : bool :=
  labels_numerator row || labels_denominator row.

(** The row has a first cell and nothing else. *)
Definition single_cell (row : list cell) : bool :=
  match row with
  | [_] => true
  | _ => false
  end.

Definition nonempty_row (row : list cell) : bool :=
  match row with
  | [] => false
  | _ :: _ => true
  end.

(** The row has a first cell, and it is not an empty one. *)
Definition first_is_text (row : list cell) : bool :=
  match row with
  | [] => false
  | CNaN :: _ => false
  | _ :: _ => true
  end.

(** The world after a successful call. *)
Definition written (w : world) (output_json : string) (doc : json) : world :=
  {| workbooks := workbooks w;
     json_files := (output_json, doc) :: json_files w |}.

(** The number of line feeds of a text. *)
Fixpoint count_lf (s : string) : nat :=
  match s with
  | EmptyString => 0
  | String a s' => (if Ascii.eqb a Py.LF then 1 else 0) + count_lf s'
  end.

(** What an iteration of the loop of [parse_rules] appends, read off the
    two matches and the two keywords that can decide. *)
Definition appended (line : string) : list string :=
  match Re.search col_pattern line, Re.search val_pattern line with
  | Some col_name, Some val =>
      if Py.str_in "exclude" (Py.lower line) then [fmt_ne col_name val]
      else if Py.str_in "filter" (Py.lower line) then [fmt_eq col_name val]
      else []
  | _, _ => []
  end.

(** [s] without the prefix [w], when it has it. *)
Fixpoint drop_prefix (w s : string) : option string :=
  match w with
  | EmptyString => Some s
  | String c w' =>
      match s with
      | String a s' => if Ascii.eqb a c then drop_prefix w' s' else None
      | EmptyString => None
      end
  end.

(** What [col_pattern] matches at the start of [s]: the word column, a run
    of whitespace (not empty), a double quote, the run of characters up to
    the next double quote (not empty), and that double quote. *)
Definition col_here (s : string) : option string :=
  match drop_prefix "column" s with
  | Some s1 =>
      let (blanks, t) := span Py.is_space s1 in
      match blanks, t with
      | String _ _, String b t' =>
          if Ascii.eqb b dq
          then let (run, u) := span not_dq t' in
               match run, u with
               | String _ _, String d _ =>
                   if Ascii.eqb d dq then Some run else None
               | _, _ => None
               end
          else None
      | _, _ => None
      end
  | None => None
  end.

(** A comparison of a column with a value, both not empty and free of
    double quotes. *)
Definition comparison (c : string) : Prop :=
  exists C V : string,
    (c = fmt_ne C V \/ c = fmt_eq C V)
    /\ C <> EmptyString /\ all not_dq C = true
    /\ V <> EmptyString /\ all not_dq V = true.

(** ** Sample lines, blocks and workbooks *)

Definition exclude_line : string :=
  "1. Exclude line where column " ++ quoted "A (ColA Name)"
  ++ " = " ++ quoted "val1".

Definition filter_line : string :=
  "- Filter column " ++ quoted "B (ColB Name)" ++ " contain " ++ quoted "val2".

Definition unfilter_line : string :=
  "Unfilter column " ++ quoted "A" ++ " = " ++ quoted "x".

Definition two_line_block : string :=
  exclude_line ++ String Py.LF filter_line.

Definition suffix_line : string :=
  ("Exclude line where column " ++ quoted "A" ++ " = ")
  ++ quoted "x" ++ " (urgent)".

Definition unparsable_block : string :=
  "see the attached sheet" ++ String Py.LF "column A must not be empty".

(** A disk with one workbook, [rules.xlsx], and no JSON file yet. *)
Definition one_workbook (df : DataFrame) : world :=
  {| workbooks := fun path =>
       if String.eqb path "rules.xlsx" then Some df else None;
     json_files := [] |}.

Definition numerator_only : DataFrame :=
  [[CText "Numerator"; CText exclude_line]].

Definition empty_then_filled : DataFrame :=
  [[CText "Numerator"; CText "   "];
   [CText "Numerator"; CText exclude_line];
   [CText "Denominator"; CText filter_line]].

Definition empty_numerator : DataFrame :=
  [[CText "Numerator"; CText "   "];
   [CText "Denominator"; CText filter_line]].

Definition division_by_num3 : string := "new_map.num2/new_map.num3".

Definition loop_head : string := "for(a in states){".

Definition one_column_labelled : DataFrame :=
  [[CText "Rules"]; [CText " DENOMINATOR "]; [CText "Numerator"]].

Definition one_column_plain : DataFrame :=
  [[CText "Rules"]; [CText "see the other sheet"]].

Definition two_numerators : DataFrame :=
  [[CText "numerator"; CText "first"];
   [CText "numerator"; CText "  second  "];
   [CText "other"; CText "ignored"]].

Definition blank_numerator : DataFrame :=
  [[CText "Numerator"; CNaN];
   [CText "Denominator"; CText filter_line]].

Definition shouted_line : string :=
  "EXCLUDE line where column " ++ quoted "A" ++ " = " ++ quoted "x".

Definition capital_column_line : string :=
  "Exclude line where Column " ++ quoted "A" ++ " = " ++ quoted "x".

Definition lone_token_line : string :=
  "Exclude rows with column " ++ quoted "Status".

Definition no_keyword_line : string :=
  "Keep rows where column " ++ quoted "A" ++ " = " ++ quoted "x".

(** * Properties *)

(** ** The matcher on small inputs *)

Section MatcherExamples.

(** Leftmost match; the column name runs up to the next double quote. *)
Example col_first_match :
  Re.search col_pattern
    ("column " ++ quoted "A" ++ " or column " ++ quoted "B")
  = Some "A".
Proof. reflexivity. Qed.

(** [\s+] needs at least one blank between the word and the quote. *)
Example col_needs_blank :
  Re.search col_pattern ("column" ++ quoted "A") = None.
Proof. reflexivity. Qed.

(** The group of [val_pattern] cannot be empty. *)
Example val_not_empty :
  Re.search val_pattern
    ("column " ++ quoted "A" ++ " = " ++ quoted EmptyString)
  = None.
Proof. reflexivity. Qed.

(** Blanks, and one line feed at the very end, may follow the value. *)
Example val_before_blanks :
  Re.search val_pattern (quoted "x" ++ "  " ++ String Py.LF EmptyString)
  = Some "x".
Proof. reflexivity. Qed.

Example strip_both_ends : Py.strip "  a b  " = "a b".
Proof. reflexivity. Qed.

Example split_keeps_last_empty_piece :
  Py.split_lines ("a" ++ String Py.LF ("b" ++ String Py.LF EmptyString))
  = ["a"; "b"; EmptyString].
Proof. reflexivity. Qed.

Example two_line_block_compiled :
  parse_rules two_line_block
  = "if(params['_source']['A (ColA Name)']!= 'val1'"
    ++ " && params['_source']['B (ColB Name)'] == 'val2'){"
    ++ updates.
Proof. reflexivity. Qed.

End MatcherExamples.

(** ** Facts about strings *)

Section StringFacts.

Lemma app_assoc_s (a b c : string) : (a ++ b) ++ c = a ++ (b ++ c).
Proof. induction a as [|x a IH]; simpl; [reflexivity | now rewrite IH]. Qed.

Lemma app_empty_r (a : string) : a ++ EmptyString = a.
Proof. induction a as [|x a IH]; simpl; [reflexivity | now rewrite IH]. Qed.

Lemma app_inv_head_s (a b c : string) : a ++ b = a ++ c -> b = c.
Proof.
  induction a as [|x a IH]; simpl; intro H; [exact H|].
  injection H as H. now apply IH.
Qed.

Lemma prefix_app (a r : string) : String.prefix a (a ++ r) = true.
Proof.
  induction a as [|x a IH]; simpl.
  - now destruct r.
  - destruct (ascii_dec x x) as [_|N]; [exact IH | now elim N].
Qed.

Lemma prefix_split (a s : string) :
  String.prefix a s = true -> exists r, s = a ++ r.
Proof.
  revert s. induction a as [|x a IH]; intros s H.
  - now exists s.
  - destruct s as [|y s]; simpl in H; [discriminate|].
    destruct (ascii_dec x y) as [->|]; [|discriminate].
    destruct (IH _ H) as [r ->]. now exists r.
Qed.

Lemma str_in_prefix (sub s : string) :
  String.prefix sub s = true -> Py.str_in sub s = true.
Proof. intro H. destruct s; unfold Py.str_in; now rewrite H. Qed.

Lemma str_in_cons (sub s : string) (x : ascii) :
  Py.str_in sub s = true -> Py.str_in sub (String x s) = true.
Proof.
  intro H. change (Py.str_in sub (String x s))
    with (if String.prefix sub (String x s) then true else Py.str_in sub s).
  rewrite H. now destruct (String.prefix sub (String x s)).
Qed.

Lemma str_in_app (sub pre post : string) :
  Py.str_in sub (pre ++ sub ++ post) = true.
Proof.
  induction pre as [|x pre IH].
  - change (Py.str_in sub (sub ++ post) = true).
    apply str_in_prefix, prefix_app.
  - change (Py.str_in sub (String x (pre ++ sub ++ post)) = true).
    apply str_in_cons, IH.
Qed.

Lemma str_in_split (sub s : string) :
  Py.str_in sub s = true -> exists pre post, s = pre ++ sub ++ post.
Proof.
  induction s as [|x s IH]; intro H.
  - unfold Py.str_in in H.
    destruct (String.prefix sub EmptyString) eqn:E; [|discriminate].
    destruct (prefix_split _ _ E) as [r Hr].
    exists EmptyString, r. exact Hr.
  - change (Py.str_in sub (String x s))
      with (if String.prefix sub (String x s) then true else Py.str_in sub s)
      in H.
    destruct (String.prefix sub (String x s)) eqn:E.
    + destruct (prefix_split _ _ E) as [r Hr].
      exists EmptyString, r. exact Hr.
    + destruct (IH H) as (pre & post & ->).
      now exists (String x pre), post.
Qed.

(** A string that contains [a ++ b] contains [b]. *)
Lemma str_in_tail (a b s : string) :
  Py.str_in (a ++ b) s = true -> Py.str_in b s = true.
Proof.
  intro H. destruct (str_in_split _ _ H) as (pre & post & ->).
  rewrite app_assoc_s, <- (app_assoc_s pre a). apply str_in_app.
Qed.

End StringFacts.

(** ** The loop of [parse_rules] *)

Section Loop.

(** One iteration appends to [conditions] what it would put in an empty
    list. *)
Lemma loop_body_app (conditions : list string) (line : string) :
  loop_body conditions line = (conditions ++ loop_body [] line)%list.
Proof.
  unfold loop_body.
  destruct (negb (Py.truthy (Py.strip line))); [now rewrite app_nil_r|].
  destruct (Re.search col_pattern (Py.strip line));
    [|now rewrite app_nil_r].
  destruct (Re.search val_pattern (Py.strip line));
    [|now rewrite app_nil_r].
  repeat match goal with
         | |- context [if ?b then _ else _] => destruct b
         end; simpl; try reflexivity; now rewrite app_nil_r.
Qed.

Lemma fold_loop_body (lines : list string) (acc : list string) :
  fold_left loop_body lines acc
  = (acc ++ flat_map (loop_body []) lines)%list.
Proof.
  revert acc. induction lines as [|l lines IH]; intro acc; simpl.
  - now rewrite app_nil_r.
  - rewrite IH, (loop_body_app acc l), <- app_assoc. reflexivity.
Qed.

(** The conditions of a block are those of its lines, in order. *)
Lemma conditions_of_lines (rule_text : string) :
  conditions_of rule_text
  = flat_map (loop_body []) (Py.split_lines rule_text).
Proof. unfold conditions_of. now rewrite fold_loop_body. Qed.

(** Every element of a joined list occurs in the result. *)
Lemma str_in_join (sep c : string) (l : list string) :
  In c l -> exists pre post, Py.join sep l = pre ++ c ++ post.
Proof.
  unfold Py.join. induction l as [|x l IH]; [intros []|].
  intros [->|H].
  - destruct l as [|y l]; simpl.
    + exists EmptyString, EmptyString. now rewrite app_empty_r.
    + now exists EmptyString, (sep ++ String.concat sep (y :: l)).
  - destruct (IH H) as (pre & post & E).
    destruct l as [|y l]; [destruct H|].
    change (String.concat sep (x :: y :: l))
      with (x ++ sep ++ String.concat sep (y :: l)).
    rewrite E. exists (x ++ sep ++ pre), post.
    now rewrite !app_assoc_s.
Qed.

(** Every condition of a block occurs in its compiled statement. *)
Lemma condition_in_guard (rule_text c : string) :
  In c (conditions_of rule_text) ->
  Py.str_in c (parse_rules rule_text) = true.
Proof.
  intro H. unfold parse_rules.
  destruct (conditions_of rule_text) as [|x l] eqn:E; [destruct H|].
  destruct (str_in_join " && " c _ H) as (pre & post & ->).
  cbv zeta.
  replace (("if(" ++ (pre ++ c ++ post) ++ "){") ++ updates)
    with (("if(" ++ pre) ++ c ++ (post ++ "){" ++ updates)).
  - apply str_in_app.
  - now rewrite !app_assoc_s.
Qed.

(** What a line puts in the list is in the conditions of any block that
    has the line. *)
Lemma line_condition_in_block (rule_text line c : string) :
  In line (Py.split_lines rule_text) ->
  In c (loop_body [] line) ->
  In c (conditions_of rule_text).
Proof.
  intros Hl Hc. rewrite conditions_of_lines.
  apply in_flat_map. now exists line.
Qed.

End Loop.

(** ** Which comparison a line compiles to *)

Section Comparisons.

Lemma fmt_ne_not_fmt_eq (C V : string) : fmt_ne C V <> fmt_eq C V.
Proof.
  unfold fmt_ne, fmt_eq. intro H.
  apply app_inv_head_s in H. apply app_inv_head_s in H.
  simpl in H. discriminate H.
Qed.

(** A line whose two patterns match is not empty once stripped. *)
Lemma matched_line_truthy (line C : string) :
  Re.search col_pattern line = Some C -> Py.truthy line = true.
Proof. destruct line; [discriminate | reflexivity]. Qed.

Lemma loop_body_exclude (conditions : list string) (raw C V : string) :
  Re.search col_pattern (Py.strip raw) = Some C ->
  Re.search val_pattern (Py.strip raw) = Some V ->
  Py.str_in "exclude" (Py.lower (Py.strip raw)) = true ->
  loop_body conditions raw = (conditions ++ [fmt_ne C V])%list.
Proof.
  intros HC HV HE. unfold loop_body.
  rewrite (matched_line_truthy _ _ HC), HC, HV, HE. reflexivity.
Qed.

Lemma loop_body_filter (conditions : list string) (raw C V : string) :
  Re.search col_pattern (Py.strip raw) = Some C ->
  Re.search val_pattern (Py.strip raw) = Some V ->
  Py.str_in "exclude" (Py.lower (Py.strip raw)) = false ->
  Py.str_in "filter" (Py.lower (Py.strip raw)) = true ->
  loop_body conditions raw = (conditions ++ [fmt_eq C V])%list.
Proof.
  intros HC HV HE HF. unfold loop_body.
  rewrite (matched_line_truthy _ _ HC), HC, HV, HE, HF.
  now destruct (Py.str_in "contain" (Py.lower (Py.strip raw))).
Qed.

(** The condition of a line of the block is in the compiled statement. *)
Lemma appended_in_guard (rule_text raw c : string) :
  In raw (Py.split_lines rule_text) ->
  loop_body [] raw = [c] ->
  Py.str_in c (parse_rules rule_text) = true.
Proof.
  intros Hl Hc. apply condition_in_guard.
  apply (line_condition_in_block rule_text raw c Hl).
  rewrite Hc. now left.
Qed.

End Comparisons.

(** C1 (fails on the code).  A line that contains the keyword unfilter,
    does not contain exclude, and yields a column name C and a value V is
    compiled by [parse_rules] to the equality [fmt_eq C V], not to the
    inequality [fmt_ne C V] that exclude produces: unfilter contains
    filter, and the branch for filter is tested first. *)
Theorem unfilter_line_compiles_to_equality
  (conditions : list string) (raw C V : string) :
  Py.str_in "unfilter" (Py.lower (Py.strip raw)) = true ->
  Py.str_in "exclude" (Py.lower (Py.strip raw)) = false ->
  Re.search col_pattern (Py.strip raw) = Some C ->
  Re.search val_pattern (Py.strip raw) = Some V ->
  loop_body conditions raw = (conditions ++ [fmt_eq C V])%list
  /\ loop_body conditions raw <> (conditions ++ [fmt_ne C V])%list.
Proof.
  intros HU HE HC HV.
  assert (HF : Py.str_in "filter" (Py.lower (Py.strip raw)) = true)
    by (apply (str_in_tail "un" "filter"); exact HU).
  rewrite (loop_body_filter conditions raw C V HC HV HE HF).
  split; [reflexivity|].
  intro H. apply app_inv_head in H.
  exact (fmt_ne_not_fmt_eq C V (eq_sym (f_equal (hd EmptyString) H))).
Qed.

Lemma unfilter_line_compiles_to_equality_witness :
  Py.str_in "unfilter" (Py.lower (Py.strip unfilter_line)) = true
  /\ Py.str_in "exclude" (Py.lower (Py.strip unfilter_line)) = false
  /\ Re.search col_pattern (Py.strip unfilter_line) = Some "A"
  /\ Re.search val_pattern (Py.strip unfilter_line) = Some "x"
  /\ loop_body [] unfilter_line = ["params['_source']['A'] == 'x'"]
  /\ loop_body [] unfilter_line <> ["params['_source']['A']!= 'x'"].
Proof.
  repeat (split; [reflexivity|]).
  apply (unfilter_line_compiles_to_equality [] unfilter_line "A" "x");
    reflexivity.
Defined.

(** C2.  For a line that yields a column name C and a value V: when the
    line contains exclude (in any case) the loop appends the inequality
    [fmt_ne C V], which is not the equality; otherwise, when it contains
    filter, the loop appends the equality [fmt_eq C V] whether or not the
    line contains contain.  In both cases the comparison occurs in the
    compiled statement of every block that has the line. *)
Theorem exclude_and_filter_comparisons
  (conditions : list string) (rule_text raw C V : string) :
  Re.search col_pattern (Py.strip raw) = Some C ->
  Re.search val_pattern (Py.strip raw) = Some V ->
  In raw (Py.split_lines rule_text) ->
  (Py.str_in "exclude" (Py.lower (Py.strip raw)) = true ->
   loop_body conditions raw = (conditions ++ [fmt_ne C V])%list
   /\ fmt_ne C V <> fmt_eq C V
   /\ Py.str_in (fmt_ne C V) (parse_rules rule_text) = true)
  /\ (Py.str_in "exclude" (Py.lower (Py.strip raw)) = false ->
      Py.str_in "filter" (Py.lower (Py.strip raw)) = true ->
      forall contain : bool,
        Py.str_in "contain" (Py.lower (Py.strip raw)) = contain ->
        loop_body conditions raw = (conditions ++ [fmt_eq C V])%list
        /\ Py.str_in (fmt_eq C V) (parse_rules rule_text) = true).
Proof.
  intros HC HV Hl. split.
  - intro HE. split; [now apply loop_body_exclude|].
    split; [apply fmt_ne_not_fmt_eq|].
    apply (appended_in_guard rule_text raw); [exact Hl|].
    now apply (loop_body_exclude []).
  - intros HE HF contain _. split; [now apply loop_body_filter|].
    apply (appended_in_guard rule_text raw); [exact Hl|].
    now apply (loop_body_filter []).
Qed.

Lemma exclude_and_filter_comparisons_witness :
  (Re.search col_pattern (Py.strip exclude_line) = Some "A (ColA Name)"
   /\ Re.search val_pattern (Py.strip exclude_line) = Some "val1"
   /\ In exclude_line (Py.split_lines two_line_block)
   /\ Py.str_in "exclude" (Py.lower (Py.strip exclude_line)) = true
   /\ Py.str_in "params['_source']['A (ColA Name)']!= 'val1'"
        (parse_rules two_line_block) = true)
  /\ (Re.search col_pattern (Py.strip filter_line) = Some "B (ColB Name)"
      /\ Re.search val_pattern (Py.strip filter_line) = Some "val2"
      /\ In filter_line (Py.split_lines two_line_block)
      /\ Py.str_in "exclude" (Py.lower (Py.strip filter_line)) = false
      /\ Py.str_in "filter" (Py.lower (Py.strip filter_line)) = true
      /\ Py.str_in "params['_source']['B (ColB Name)'] == 'val2'"
           (parse_rules two_line_block) = true).
Proof.
  split.
  - split; [reflexivity|]. split; [reflexivity|].
    split; [left; reflexivity|]. split; [reflexivity|].
    destruct (exclude_and_filter_comparisons
                [] two_line_block exclude_line "A (ColA Name)" "val1"
                eq_refl eq_refl (or_introl eq_refl)) as [H _].
    exact (proj2 (proj2 (H eq_refl))).
  - split; [reflexivity|]. split; [reflexivity|].
    split; [right; left; reflexivity|].
    split; [reflexivity|]. split; [reflexivity|].
    destruct (exclude_and_filter_comparisons
                [] two_line_block filter_line "B (ColB Name)" "val2"
                eq_refl eq_refl (or_intror (or_introl eq_refl))) as [_ H].
    exact (proj2 (H eq_refl eq_refl true eq_refl)).
Defined.

(** ** The value pattern *)

Section ValuePattern.

(** When the rest of the pattern cannot start with a character of the
    class, a greedy repetition takes the whole run and never backtracks. *)
Lemma many_det (p : ascii -> bool)
    (rest : string -> Re.capture -> option string) :
  (forall a s k, p a = true -> rest (String a s) k = None) ->
  forall s enough k,
    Re.many p rest enough s k
    = let (run, t) := span p s in
      if enough || Py.truthy run then rest t (push_all run k) else None.
Proof.
  intros Hrest. induction s as [|a s IH]; intros enough k.
  - simpl. now destruct enough.
  - simpl. destruct (p a) eqn:Pa.
    + rewrite IH. destruct (span p s) as [run t]. simpl.
      rewrite (Hrest a s k Pa). rewrite orb_true_r.
      destruct (rest t (push_all run (Re.push a k))); [reflexivity|].
      now destruct enough.
    + simpl. now rewrite orb_false_r.
Qed.

Lemma dollar_here (s : string) (k : Re.capture) :
  Re.match_here [Re.Dollar] s k
  = match s with
    | EmptyString => Some (Re.text k)
    | String a EmptyString =>
        if Ascii.eqb a Py.LF then Some (Re.text k) else None
    | _ => None
    end.
Proof. destruct s as [|a [|b s]]; reflexivity. Qed.

Lemma lf_is_space (a : ascii) :
  Ascii.eqb a Py.LF = true -> Py.is_space a = true.
Proof. intro H. apply Ascii.eqb_eq in H. now subst a. Qed.

(** Any whitespace and then [$], outside the group: what is left of the
    string must be whitespace. *)
Lemma spaces_then_dollar (s : string) (k : Re.capture) :
  Re.is_open k = false ->
  Re.many Py.is_space (Re.match_here [Re.Dollar]) true s k
  = if all Py.is_space s then Some (Re.text k) else None.
Proof.
  intro Hk. induction s as [|a s IH].
  - reflexivity.
  - cbn [Re.many all]. rewrite dollar_here.
    assert (Hp : Re.push a k = k) by (unfold Re.push; now rewrite Hk).
    rewrite Hp, IH.
    destruct (Py.is_space a) eqn:Sa; cbn [andb].
    + destruct (all Py.is_space s) eqn:Ss; [reflexivity|].
      destruct s as [|b s]; [discriminate Ss | reflexivity].
    + destruct s as [|b s]; [|reflexivity].
      destruct (Ascii.eqb a Py.LF) eqn:E; [|reflexivity].
      apply lf_is_space in E. congruence.
Qed.

Lemma push_all_open (run : string) (k : Re.capture) :
  Re.is_open k = true ->
  push_all run k
  = {| Re.is_open := true; Re.text := Re.text k ++ run |}.
Proof.
  revert k. induction run as [|a run IH]; intros k Hk.
  - simpl. rewrite app_empty_r. destruct k as [o t]. simpl in Hk |- *.
    now subst o.
  - simpl. unfold Re.push at 1. rewrite Hk. rewrite IH by reflexivity.
    simpl. now rewrite app_assoc_s.
Qed.

(** The matcher on [val_pattern] computes [val_here]. *)
Lemma match_val_here (s : string) :
  Re.match_here val_pattern s Re.no_capture = val_here s.
Proof.
  destruct s as [|a s1]; [reflexivity|].
  unfold val_pattern, val_here. cbn [Re.match_here].
  destruct (Ascii.eqb a dq) eqn:Ea; [|reflexivity].
  rewrite many_det.
  - destruct (span not_dq s1) as [run t].
    cbn [negb orb].
    destruct run as [|r0 run]; [reflexivity|].
    cbn [Py.truthy].
    rewrite push_all_open by reflexivity.
    destruct t as [|b s3]; [reflexivity|].
    destruct (Ascii.eqb b dq) eqn:Eb; [|reflexivity].
    cbn [andb negb].
    unfold Re.close_group, Re.push. cbn [Re.is_open Re.text].
    rewrite spaces_then_dollar by reflexivity.
    reflexivity.
  - intros c s k Hc. unfold not_dq in Hc.
    destruct (Ascii.eqb c dq); [discriminate Hc | reflexivity].
Qed.

Lemma span_spec (p : ascii -> bool) (s run t : string) :
  span p s = (run, t) ->
  s = run ++ t /\ all p run = true.
Proof.
  revert run t. induction s as [|a s IH]; intros run t H; simpl in H.
  - injection H as <- <-. now split.
  - destruct (p a) eqn:Pa.
    + destruct (span p s) as [run' t'] eqn:E. injection H as <- <-.
      destruct (IH _ _ eq_refl) as [-> Hall]. simpl. now rewrite Pa.
    + injection H as <- <-. now split.
Qed.

Lemma span_app (p : ascii -> bool) (run t : string) (b : ascii) :
  all p run = true -> p b = false ->
  span p (run ++ String b t) = (run, String b t).
Proof.
  intros Hall Hb. induction run as [|a run IH]; simpl.
  - now rewrite Hb.
  - simpl in Hall. apply andb_prop in Hall as [Pa Hall].
    now rewrite Pa, (IH Hall).
Qed.

Lemma quoted_app (V ws : string) :
  quoted V ++ ws = String dq (V ++ String dq ws).
Proof. unfold quoted. simpl. now rewrite app_assoc_s. Qed.

Lemma dq_not_not_dq : not_dq dq = false.
Proof. reflexivity. Qed.

Lemma val_here_sound (s r : string) :
  val_here s = Some r ->
  exists s3, s = quoted r ++ s3
             /\ Py.truthy r = true
             /\ all not_dq r = true
             /\ all Py.is_space s3 = true.
Proof.
  destruct s as [|a s1]; [discriminate|]. unfold val_here.
  destruct (Ascii.eqb a dq) eqn:Ea; [|discriminate].
  apply Ascii.eqb_eq in Ea. subst a.
  destruct (span not_dq s1) as [run t] eqn:E.
  destruct run as [|r0 run]; [discriminate|].
  destruct t as [|b s3]; [discriminate|].
  destruct (Ascii.eqb b dq) eqn:Eb; [|discriminate].
  apply Ascii.eqb_eq in Eb. subst b.
  destruct (all Py.is_space s3) eqn:Es; [|discriminate].
  intro H. injection H as <-.
  destruct (span_spec _ _ _ _ E) as [-> Hall].
  exists s3. rewrite quoted_app. now repeat split.
Qed.

Lemma val_here_complete (r s3 : string) :
  Py.truthy r = true -> all not_dq r = true -> all Py.is_space s3 = true ->
  val_here (quoted r ++ s3) = Some r.
Proof.
  intros Hr Hall Hs. rewrite quoted_app. unfold val_here.
  rewrite Ascii.eqb_refl, (span_app not_dq r s3 dq Hall dq_not_not_dq).
  destruct r as [|r0 r]; [discriminate Hr|].
  now rewrite Ascii.eqb_refl, Hs.
Qed.

(** [re.search] with [val_pattern]: the first position, from the left, at
    which [val_here] succeeds. *)
Lemma search_val_step (s : string) :
  Re.search val_pattern s
  = match val_here s with
    | Some r => Some r
    | None =>
        match s with
        | EmptyString => None
        | String _ s' => Re.search val_pattern s'
        end
    end.
Proof. destruct s; cbn [Re.search]; now rewrite match_val_here. Qed.

Lemma count_dq_app (a b : string) :
  count_dq (a ++ b) = count_dq a + count_dq b.
Proof.
  induction a as [|x a IH]; simpl; [reflexivity|]. rewrite IH. lia.
Qed.

Lemma count_dq_none (s : string) : all not_dq s = true -> count_dq s = 0.
Proof.
  induction s as [|x s IH]; simpl; [reflexivity|].
  intro H. apply andb_prop in H as [Hx Hs]. unfold not_dq in Hx.
  destruct (Ascii.eqb x dq); [discriminate Hx|]. now rewrite IH.
Qed.

Lemma space_not_dq (s : string) :
  all Py.is_space s = true -> all not_dq s = true.
Proof.
  induction s as [|x s IH]; simpl; [reflexivity|].
  intro H. apply andb_prop in H as [Hx Hs]. rewrite (IH Hs), andb_true_r.
  unfold not_dq. destruct (Ascii.eqb x dq) eqn:E; [|reflexivity].
  apply Ascii.eqb_eq in E. subst x. discriminate Hx.
Qed.

Lemma count_dq_quoted (r s3 : string) :
  all not_dq r = true -> all Py.is_space s3 = true ->
  count_dq (quoted r ++ s3) = 2.
Proof.
  intros Hr Hs. rewrite quoted_app. cbn [count_dq].
  rewrite Ascii.eqb_refl, count_dq_app. cbn [count_dq].
  now rewrite Ascii.eqb_refl, (count_dq_none r Hr),
    (count_dq_none s3 (space_not_dq _ Hs)).
Qed.

(** A quoted run that ends the line is what the search returns. *)
Lemma search_val_complete (pre V ws : string) :
  Py.truthy V = true -> all not_dq V = true -> all Py.is_space ws = true ->
  Re.search val_pattern (pre ++ quoted V ++ ws) = Some V.
Proof.
  intros HV Hall Hws. induction pre as [|c pre IH].
  - change (EmptyString ++ quoted V ++ ws) with (quoted V ++ ws).
    rewrite search_val_step. now rewrite val_here_complete.
  - rewrite search_val_step.
    destruct (val_here (String c pre ++ quoted V ++ ws)) as [r|] eqn:E.
    + exfalso. destruct (val_here_sound _ _ E) as (s3 & Hs & _ & Hr & Hs3).
      apply (f_equal count_dq) in Hs.
      rewrite (count_dq_quoted r s3 Hr Hs3) in Hs.
      rewrite count_dq_app, (count_dq_quoted V ws Hall Hws) in Hs.
      assert (Hc : Ascii.eqb c dq = true).
      { unfold val_here in E. simpl in E.
        destruct (Ascii.eqb c dq); [reflexivity | discriminate E]. }
      simpl in Hs. rewrite Hc in Hs. lia.
    + exact IH.
Qed.

(** What the search returns is a quoted run that ends the line. *)
Lemma search_val_sound (s V : string) :
  Re.search val_pattern s = Some V ->
  exists pre ws, s = pre ++ quoted V ++ ws
                 /\ Py.truthy V = true
                 /\ all not_dq V = true
                 /\ all Py.is_space ws = true.
Proof.
  induction s as [|c s IH]; rewrite search_val_step.
  - discriminate.
  - destruct (val_here (String c s)) as [r|] eqn:E.
    + intro H. injection H as ->.
      destruct (val_here_sound _ _ E) as (s3 & Hs & H).
      exists EmptyString, s3. now split.
    + intro H. destruct (IH H) as (pre & ws & -> & Hrest).
      exists (String c pre), ws. now split.
Qed.

Lemma after_last_dq_none (t : string) :
  all not_dq t = true -> after_last_dq t = None.
Proof.
  induction t as [|x t IH]; simpl; [reflexivity|].
  intro H. apply andb_prop in H as [Hx Ht]. rewrite (IH Ht).
  unfold not_dq in Hx. now destruct (Ascii.eqb x dq).
Qed.

Lemma after_last_dq_app (x t : string) :
  all not_dq t = true ->
  after_last_dq (x ++ t) = option_map (fun u => u ++ t) (after_last_dq x).
Proof.
  intro Ht. induction x as [|c x IH]; simpl.
  - now apply after_last_dq_none.
  - rewrite IH. destruct (after_last_dq x); simpl; [reflexivity|].
    now destruct (Ascii.eqb c dq).
Qed.

Lemma all_app (p : ascii -> bool) (a b : string) :
  all p (a ++ b) = all p a && all p b.
Proof.
  induction a as [|x a IH]; simpl; [reflexivity|].
  now rewrite IH, andb_assoc.
Qed.

Lemma after_last_dq_mid (x t : string) :
  all not_dq t = true -> after_last_dq (x ++ String dq t) = Some t.
Proof.
  intro Ht. induction x as [|c x IH]; cbn [append after_last_dq].
  - now rewrite (after_last_dq_none t Ht), Ascii.eqb_refl.
  - now rewrite IH.
Qed.

(** When the search succeeds, only whitespace follows the last double
    quote of the line. *)
Lemma search_val_tail (s V : string) :
  Re.search val_pattern s = Some V ->
  exists ws, after_last_dq s = Some ws /\ all Py.is_space ws = true.
Proof.
  intro H. destruct (search_val_sound _ _ H) as (pre & ws & -> & _ & HV & Hws).
  exists ws. split; [|exact Hws].
  rewrite quoted_app.
  replace (pre ++ String dq (V ++ String dq ws))
    with ((pre ++ String dq V) ++ String dq ws)
    by (now rewrite app_assoc_s).
  now apply after_last_dq_mid, space_not_dq.
Qed.

(** A line whose last double quote -- if it has one -- is followed by
    something that is not whitespace gives no value. *)
Lemma search_val_suffix (body suffix : string) :
  all not_dq suffix = true -> all Py.is_space suffix = false ->
  Re.search val_pattern (body ++ suffix) = None.
Proof.
  intros Hq Hs.
  destruct (Re.search val_pattern (body ++ suffix)) as [V|] eqn:E;
    [exfalso | reflexivity].
  destruct (search_val_tail _ _ E) as (ws & Hl & Hws).
  rewrite (after_last_dq_app body suffix Hq) in Hl.
  destruct (after_last_dq body) as [u|]; [|discriminate Hl].
  simpl in Hl. injection Hl as <-.
  rewrite all_app in Hws. apply andb_prop in Hws as [_ Hws]. congruence.
Qed.

Lemma loop_body_no_value (conditions : list string) (raw : string) :
  Re.search val_pattern (Py.strip raw) = None ->
  loop_body conditions raw = conditions.
Proof.
  intro H. unfold loop_body. rewrite H.
  destruct (negb (Py.truthy (Py.strip raw))); [reflexivity|].
  now destruct (Re.search col_pattern (Py.strip raw)).
Qed.

End ValuePattern.

(** C3 (fails on the code).  The line
    [Exclude line where column <A> = <x> (urgent)], where [<t>] is [t]
    between double quotes, has a quoted token after the word column and a
    second quoted token, the last of the line, followed by a suffix that is
    not whitespace: the value pattern, which ends in [$], does not match,
    no value is extracted and the line gives no condition. *)
Lemma value_before_suffix_is_not_extracted :
  Re.search col_pattern (Py.strip suffix_line) = Some "A"
  /\ Re.search val_pattern (Py.strip suffix_line) = None
  /\ loop_body [] suffix_line = []
  /\ parse_rules suffix_line = EmptyString.
Proof. repeat split; reflexivity. Qed.

(** C3, as amended.  Let the last double-quoted token of a line be V (not
    empty, no double quote in it), after any text [pre].  When only
    whitespace follows its closing quote, the value extracted is V.  When
    the closing quote is followed by a suffix that has a character other
    than whitespace, no value is extracted, and a line that reads so once
    stripped adds no condition. *)
Theorem value_is_last_token_when_it_ends_line (pre V ws : string) :
  V <> EmptyString ->
  all not_dq V = true ->
  all Py.is_space ws = true ->
  Re.search val_pattern (pre ++ quoted V ++ ws) = Some V
  /\ (forall suffix : string,
        all not_dq suffix = true ->
        all Py.is_space suffix = false ->
        Re.search val_pattern (pre ++ quoted V ++ suffix) = None
        /\ (forall (conditions : list string) (raw : string),
              Py.strip raw = pre ++ quoted V ++ suffix ->
              loop_body conditions raw = conditions)).
Proof.
  intros HV Hq Hws. split.
  - apply search_val_complete; [|exact Hq|exact Hws].
    destruct V; [now elim HV | reflexivity].
  - intros suffix Hsq Hss.
    assert (N : Re.search val_pattern (pre ++ quoted V ++ suffix) = None).
    { rewrite <- app_assoc_s. now apply search_val_suffix. }
    split; [exact N|].
    intros conditions raw Hraw. apply loop_body_no_value.
    now rewrite Hraw.
Qed.

Lemma value_is_last_token_when_it_ends_line_witness :
  Re.search val_pattern
    (("Exclude line where column " ++ quoted "A" ++ " = ")
     ++ quoted "x" ++ EmptyString) = Some "x"
  /\ Re.search val_pattern
       (("Exclude line where column " ++ quoted "A" ++ " = ")
        ++ quoted "x" ++ " (urgent)") = None
  /\ loop_body [] suffix_line = [].
Proof.
  assert (Hx : "x" <> EmptyString) by discriminate.
  destruct (value_is_last_token_when_it_ends_line
              ("Exclude line where column " ++ quoted "A" ++ " = ")
              "x" EmptyString Hx eq_refl eq_refl) as [H1 H2].
  destruct (H2 " (urgent)" eq_refl eq_refl) as [H3 H4].
  split; [exact H1|]. split; [exact H3|].
  apply H4. reflexivity.
Defined.

(** ** The map script *)

Section MapScript.

Lemma no_conditions_no_statement (rule_text : string) :
  conditions_of rule_text = [] -> parse_rules rule_text = EmptyString.
Proof. intro H. unfold parse_rules. now rewrite H. Qed.

(** A block none of whose lines gives a condition has no condition. *)
Lemma unparsable_block_has_no_conditions (rule_text : string) :
  (forall line, In line (Py.split_lines rule_text) -> loop_body [] line = []) ->
  conditions_of rule_text = [].
Proof.
  intro H. rewrite conditions_of_lines.
  induction (Py.split_lines rule_text) as [|l ls IH]; [reflexivity|].
  simpl. rewrite (H l (or_introl eq_refl)). apply IH.
  intros line Hl. apply H. now right.
Qed.

Lemma truthy_iff (s : string) : Py.truthy s = true <-> s <> EmptyString.
Proof. destruct s; simpl; split; congruence. Qed.

(** Two texts that are set and not empty pass the check. *)
Lemma require_both_ok (n d : string) :
  n <> EmptyString -> d <> EmptyString ->
  require_both {| numerator_text := Some n; denominator_text := Some d |}
  = Ok (n, d).
Proof.
  intros Hn Hd. apply truthy_iff in Hn, Hd. unfold require_both, unset.
  cbn [numerator_text denominator_text]. now rewrite Hn, Hd.
Qed.

Lemma generate_ok (w : world) (rules_excel : string) (df df' : DataFrame)
    (n d : string) :
  workbooks w rules_excel = Some df ->
  normalize_first_column df = Ok df' ->
  scan no_texts df'
  = Ok {| numerator_text := Some n; denominator_text := Some d |} ->
  n <> EmptyString -> d <> EmptyString ->
  generate w rules_excel = Ok (painless_script (map_script n d)).
Proof.
  intros Hw Hn Hs Hne Hde. unfold generate. rewrite Hw, Hn.
  cbn [bind]. rewrite Hs. cbn [bind].
  now rewrite (require_both_ok n d Hne Hde).
Qed.

End MapScript.

(** C4.  When no condition is parsed from a block, its compiled statement
    is the empty string.  The map script is the numerator statement, two
    spaces, the denominator statement, in that order; so the block
    contributes the empty string on its side, and the call still produces
    its document: no exception is raised because a statement is empty. *)
Theorem empty_statement_in_map_script (rule_text : string) :
  conditions_of rule_text = [] ->
  parse_rules rule_text = EmptyString
  /\ (forall n d : string,
        map_script n d = parse_rules n ++ "  " ++ parse_rules d)
  /\ (forall other : string,
        map_script rule_text other = "  " ++ parse_rules other
        /\ map_script other rule_text = parse_rules other ++ "  ")
  /\ (forall (w : world) (rules_excel other : string) (df df' : DataFrame),
        rule_text <> EmptyString -> other <> EmptyString ->
        workbooks w rules_excel = Some df ->
        normalize_first_column df = Ok df' ->
        (scan no_texts df'
         = Ok {| numerator_text := Some rule_text;
                 denominator_text := Some other |} ->
         generate w rules_excel
         = Ok (painless_script ("  " ++ parse_rules other)))
        /\ (scan no_texts df'
            = Ok {| numerator_text := Some other;
                    denominator_text := Some rule_text |} ->
            generate w rules_excel
            = Ok (painless_script (parse_rules other ++ "  ")))).
Proof.
  intro H. pose proof (no_conditions_no_statement _ H) as E.
  split; [exact E|]. split; [reflexivity|].
  assert (M : forall other,
             map_script rule_text other = "  " ++ parse_rules other
             /\ map_script other rule_text = parse_rules other ++ "  ").
  { intro other. unfold map_script. now rewrite E. }
  split; [exact M|].
  intros w rules_excel other df df' Hr Ho Hw Hn. split; intro Hs.
  - rewrite <- (proj1 (M other)). now apply (generate_ok w _ df df').
  - rewrite <- (proj2 (M other)). now apply (generate_ok w _ df df').
Qed.

Lemma empty_statement_in_map_script_witness :
  conditions_of unparsable_block = []
  /\ parse_rules unparsable_block = EmptyString
  /\ map_script unparsable_block filter_line
     = "  if(params['_source']['B (ColB Name)'] == 'val2'){"
       ++ updates.
Proof.
  split; [reflexivity|].
  destruct (empty_statement_in_map_script unparsable_block eq_refl)
    as (H1 & _ & H3 & _).
  split; [exact H1|].
  rewrite (proj1 (H3 filter_line)). reflexivity.
Defined.

(** ** Locating the two rule blocks *)

Section Locator.

Lemma scan_app (t : texts) (a b : DataFrame) :
  scan t (a ++ b)%list = (t' <- scan t a ;; scan t' b).
Proof.
  revert t. induction a as [|r a IH]; intro t; simpl; [reflexivity|].
  destruct (scan_row t r) as [t'|e]; simpl; [apply IH | reflexivity].
Qed.

Lemma scan_row_keeps_numerator (t t' : texts) (row : list cell) :
  labels_numerator row = false ->
  scan_row t row = Ok t' -> numerator_text t' = numerator_text t.
Proof.
  unfold labels_numerator, scan_row, loc.
  destruct row as [|c row]; [discriminate|]. cbn [nth_error bind].
  intro Hl. destruct c as [x| |x]; [|discriminate|]; rewrite Hl.
  all: destruct (Py.str_in "denominator" _);
    [ destruct row as [|c1 row]; [discriminate|]; cbn [nth_error bind]
    | ]; intro H; now injection H as <-.
Qed.

Lemma scan_row_keeps_denominator (t t' : texts) (row : list cell) :
  labels_denominator row = false ->
  scan_row t row = Ok t' -> denominator_text t' = denominator_text t.
Proof.
  unfold labels_denominator, scan_row, loc.
  destruct row as [|c row]; [discriminate|]. cbn [nth_error bind].
  destruct c as [x| |x]; [|discriminate|].
  all: destruct (Py.str_in "numerator" _); cbn [negb andb];
    [ intros _; destruct row as [|c1 row]; [discriminate|];
      cbn [nth_error bind]; intro H; now injection H as <-
    | intros ->; intro H; now injection H as <- ].
Qed.

Lemma scan_keeps_numerator (rows : DataFrame) (t t' : texts) :
  forallb (fun r => negb (labels_numerator r)) rows = true ->
  scan t rows = Ok t' -> numerator_text t' = numerator_text t.
Proof.
  revert t. induction rows as [|r rows IH]; intros t Hall; simpl.
  - intro H. now injection H as <-.
  - simpl in Hall. apply andb_prop in Hall as [Hr Hall].
    apply negb_true_iff in Hr.
    destruct (scan_row t r) as [t1|e] eqn:E; simpl; [|discriminate].
    intro H. rewrite (IH t1 Hall H). now apply (scan_row_keeps_numerator t t1 r).
Qed.

Lemma scan_keeps_denominator (rows : DataFrame) (t t' : texts) :
  forallb (fun r => negb (labels_denominator r)) rows = true ->
  scan t rows = Ok t' -> denominator_text t' = denominator_text t.
Proof.
  revert t. induction rows as [|r rows IH]; intros t Hall; simpl.
  - intro H. now injection H as <-.
  - simpl in Hall. apply andb_prop in Hall as [Hr Hall].
    apply negb_true_iff in Hr.
    destruct (scan_row t r) as [t1|e] eqn:E; simpl; [|discriminate].
    intro H. rewrite (IH t1 Hall H).
    now apply (scan_row_keeps_denominator t t1 r).
Qed.

(** The check after the loop raises as soon as one placeholder is [None]
    or the empty string. *)
Lemma require_both_unset (t : texts) :
  unset (numerator_text t) = true \/ unset (denominator_text t) = true ->
  require_both t = Raise (ValueError missing_rules_msg).
Proof.
  intro H. unfold require_both.
  destruct (unset (numerator_text t)), (unset (denominator_text t));
    try reflexivity.
  destruct H; discriminate.
Qed.

Lemma build_raises_when_unset (w : world) (rules_excel output_json : string)
    (df df' : DataFrame) (t : texts) :
  workbooks w rules_excel = Some df ->
  normalize_first_column df = Ok df' ->
  scan no_texts df' = Ok t ->
  unset (numerator_text t) = true \/ unset (denominator_text t) = true ->
  build_painless_script w rules_excel output_json
  = (Some (ValueError missing_rules_msg), w).
Proof.
  intros Hw Hn Hs Hu. unfold build_painless_script, generate.
  rewrite Hw, Hn. cbn [bind]. rewrite Hs. cbn [bind].
  now rewrite (require_both_unset t Hu).
Qed.

(** A call that raises leaves the world as it was. *)
Lemma raise_writes_nothing (w : world) (rules_excel output_json : string)
    (e : exn) :
  fst (build_painless_script w rules_excel output_json) = Some e ->
  snd (build_painless_script w rules_excel output_json) = w.
Proof.
  unfold build_painless_script.
  destruct (generate w rules_excel); [discriminate | reflexivity].
Qed.

End Locator.

(** C5.  When the workbook has been read and the scan of its rows ends
    with the numerator text or the denominator text still [None], the call
    raises the [ValueError] for missing rules and the world is unchanged:
    no JSON file is written.  More generally a call that raises, whatever
    the exception, writes nothing. *)
Theorem missing_rule_block_raises
    (w : world) (rules_excel output_json : string)
    (df df' : DataFrame) (t : texts) :
  workbooks w rules_excel = Some df ->
  normalize_first_column df = Ok df' ->
  scan no_texts df' = Ok t ->
  numerator_text t = None \/ denominator_text t = None ->
  build_painless_script w rules_excel output_json
  = (Some (ValueError missing_rules_msg), w)
  /\ json_files (snd (build_painless_script w rules_excel output_json))
     = json_files w
  /\ (forall (w0 : world) (a b : string) (e : exn),
        fst (build_painless_script w0 a b) = Some e ->
        snd (build_painless_script w0 a b) = w0).
Proof.
  intros Hw Hn Hs Hu.
  assert (E : build_painless_script w rules_excel output_json
              = (Some (ValueError missing_rules_msg), w)).
  { apply (build_raises_when_unset w _ _ df df' t Hw Hn Hs).
    destruct Hu as [Hu|Hu]; rewrite Hu; [now left | now right]. }
  split; [exact E|]. split; [now rewrite E|].
  intros w0 a b e. apply raise_writes_nothing.
Qed.

Lemma missing_rule_block_raises_witness :
  scan no_texts [[CText "numerator"; CText exclude_line]]
  = Ok {| numerator_text := Some exclude_line; denominator_text := None |}
  /\ build_painless_script (one_workbook numerator_only)
       "rules.xlsx" "generated_painless.json"
     = (Some (ValueError missing_rules_msg), one_workbook numerator_only).
Proof.
  split; [reflexivity|].
  apply (missing_rule_block_raises
           (one_workbook numerator_only) "rules.xlsx"
           "generated_painless.json" numerator_only
           [[CText "numerator"; CText exclude_line]]
           {| numerator_text := Some exclude_line;
              denominator_text := None |}
           eq_refl eq_refl eq_refl (or_intror eq_refl)).
Defined.

(** C9.  A row whose first cell, once trimmed and lowercased, contains
    both numerator and denominator is taken by the first branch only: the
    iteration does what the numerator branch does, reading the second cell
    and setting the numerator text to its trimmed text, and leaves the
    denominator text as it was; the test for denominator is not reached. *)
Theorem numerator_check_takes_precedence
    (t : texts) (c0 : cell) (rest : list cell) :
  Py.str_in "numerator" (Py.lower (Py.strip (py_str c0))) = true ->
  Py.str_in "denominator" (Py.lower (Py.strip (py_str c0))) = true ->
  (row <- normalize_row (c0 :: rest) ;; scan_row t row)
  = (c1 <- loc (c0 :: rest) 1 ;;
     Ok {| numerator_text := Some (Py.strip (py_str c1));
           denominator_text := denominator_text t |}).
Proof.
  intros Hn _. destruct c0 as [x| |x]; [|discriminate Hn|];
    cbn [normalize_row bind]; unfold scan_row, loc;
    cbn [nth_error bind py_str] in *; now rewrite Hn.
Qed.

Lemma numerator_check_takes_precedence_witness :
  (row <- normalize_row
            [CText " Numerator / Denominator "; CText filter_line] ;;
   scan_row {| numerator_text := None; denominator_text := Some "kept" |} row)
  = Ok {| numerator_text := Some filter_line;
          denominator_text := Some "kept" |}.
Proof.
  apply (numerator_check_takes_precedence
           {| numerator_text := None; denominator_text := Some "kept" |}
           (CText " Numerator / Denominator ") [CText filter_line]
           eq_refl eq_refl).
Defined.

(** C10 (fails on the code).  The first row of [empty_then_filled] is a
    Numerator row whose rule text is empty once trimmed, yet the call
    raises nothing and writes the document: a later Numerator row has
    set the text again. *)
Lemma empty_row_before_filled_row_is_accepted :
  (exists first c1 rest,
     nth_error empty_then_filled 0 = Some (CText first :: c1 :: rest)
     /\ Py.str_in "numerator" (Py.lower (Py.strip first)) = true
     /\ Py.strip (py_str c1) = EmptyString)
  /\ build_painless_script (one_workbook empty_then_filled)
       "rules.xlsx" "generated_painless.json"
     = (None,
        {| workbooks := workbooks (one_workbook empty_then_filled);
           json_files :=
             [("generated_painless.json",
               painless_script (map_script exclude_line filter_line))] |}).
Proof.
  split.
  - exists "Numerator", (CText "   "), []. repeat split; reflexivity.
  - reflexivity.
Qed.

(** C10, as amended.  Take a row of the frame, with its first column
    already normalised, whose rule text is empty once trimmed, and suppose
    the scan of the frame ends without exception.  When the row is a
    Numerator row and no row after it is one, or it is a Denominator row
    (denominator and not numerator in its first cell) and no row after it
    is one, the call raises the same [ValueError] as when the text is
    [None], and writes nothing. *)
Theorem empty_rule_text_is_unset
    (w : world) (rules_excel output_json : string)
    (df before after : DataFrame) (t : texts)
    (first : string) (c1 : cell) (rest : list cell) :
  workbooks w rules_excel = Some df ->
  normalize_first_column df
  = Ok (before ++ (CText first :: c1 :: rest) :: after)%list ->
  scan no_texts (before ++ (CText first :: c1 :: rest) :: after)%list
  = Ok t ->
  Py.strip (py_str c1) = EmptyString ->
  (Py.str_in "numerator" first = true
   /\ forallb (fun r => negb (labels_numerator r)) after = true)
  \/ (Py.str_in "numerator" first = false
      /\ Py.str_in "denominator" first = true
      /\ forallb (fun r => negb (labels_denominator r)) after = true) ->
  build_painless_script w rules_excel output_json
  = (Some (ValueError missing_rules_msg), w).
Proof.
  intros Hw Hn Hs Hc1 Hrow.
  apply (build_raises_when_unset w _ _ df _ t Hw Hn Hs).
  rewrite scan_app in Hs.
  destruct (scan no_texts before) as [tb|e]; [|discriminate Hs].
  cbn [bind scan] in Hs. unfold scan_row, loc in Hs.
  cbn [nth_error bind py_str] in Hs. rewrite Hc1 in Hs.
  destruct Hrow as [[Hnum Hafter] | (Hnum & Hden & Hafter)];
    rewrite Hnum in Hs; [|rewrite Hden in Hs]; cbn [bind] in Hs.
  - left. rewrite (scan_keeps_numerator after _ t Hafter Hs). reflexivity.
  - right. rewrite (scan_keeps_denominator after _ t Hafter Hs). reflexivity.
Qed.

Lemma empty_rule_text_is_unset_witness :
  build_painless_script (one_workbook empty_numerator)
    "rules.xlsx" "generated_painless.json"
  = (Some (ValueError missing_rules_msg), one_workbook empty_numerator).
Proof.
  apply (empty_rule_text_is_unset
           (one_workbook empty_numerator) "rules.xlsx"
           "generated_painless.json" empty_numerator
           [] [[CText "denominator"; CText filter_line]]
           {| numerator_text := Some EmptyString;
              denominator_text := Some filter_line |}
           "numerator" (CText "   ") []
           eq_refl eq_refl eq_refl eq_refl
           (or_introl (conj eq_refl eq_refl))).
Defined.

(** ** The reduce script *)

(** C6 (fails on the code).  In [reduce_script] nothing that could test
    [num3] stands before the division of [num2] by [num3]: no [if], no
    comparison, no conditional expression; and the texts of a check of
    [num3] against zero occur nowhere in the script. *)
Lemma division_by_num3_has_no_guard :
  occurrences division_by_num3 reduce_script = [309]
  /\ forallb (fun test => negb (tested_before test division_by_num3
                                               reduce_script))
             ["if"; "!="; "=="; "<"; ">"; "?"] = true
  /\ Py.str_in "num3!=0" reduce_script = false
  /\ Py.str_in "num3 != 0" reduce_script = false.
Proof. repeat split; reflexivity. Qed.

(** C6, as amended.  The script divides [num2] by [num3] once, inside the
    body of the loop over the states, with no check of [num3].  Its only
    conditional is [if(new_map.den!=0)], its only comparison; it stands
    after the loop, so after the division, and what it guards is the
    division by [den] in the assignment of [Final_Performance]. *)
Theorem only_den_is_checked :
  (exists head body tail,
     reduce_script = head ++ loop_head ++ body ++ "}" ++ tail
     /\ Py.str_in "}" body = false
     /\ Py.str_in division_by_num3 body = true
     /\ Py.str_in "if" (head ++ loop_head ++ body) = false
     /\ Py.str_in "!=" (head ++ loop_head ++ body) = false
     /\ String.prefix " if(new_map.den!=0){return_map.Final_Performance = "
                      tail = true)
  /\ List.length (occurrences division_by_num3 reduce_script) = 1
  /\ List.length (occurrences "if" reduce_script) = 1
  /\ List.length (occurrences "!=" reduce_script) = 1
  /\ forallb (fun op => negb (Py.str_in op reduce_script))
             ["=="; "<"; ">"; "?"] = true
  /\ Py.str_in "num3" (drop 331 reduce_script) = false.
Proof.
  split.
  - exists (slice 0 173 reduce_script), (slice 190 375 reduce_script),
      (drop 376 reduce_script).
    repeat split; reflexivity.
  - repeat split; reflexivity.
Qed.

(** C7.  The body of the loop over the states ends with
    [new_map.den += a.map.var;]: for every state [a] the sum [den] takes
    the field [var], the one that [num1] takes in the same body.  It is
    the only statement of the script that adds to [den], and the script
    reads no other field than [var], [var1] (for [num2]) and [var2] (for
    [num3]).  The document carries the script as it is. *)
Theorem den_accumulates_var :
  (exists head body tail,
     reduce_script
     = head ++ loop_head ++ (body ++ "new_map.den += a.map.var;")
       ++ "}" ++ tail
     /\ Py.str_in "}" body = false
     /\ Py.str_in "new_map.num1 += (a.map.var);" body = true
     /\ Py.str_in "new_map.den" (head ++ loop_head ++ body) = false
     /\ Py.str_in "new_map.den +=" tail = false
     /\ Py.str_in "new_map.den =" tail = false
     /\ Py.str_in "a.map" tail = false)
  /\ map (fun i => slice i (i + 10) reduce_script)
         (occurrences "a.map." reduce_script)
     = ["a.map.var)"; "a.map.var1"; "a.map.var2"; "a.map.var;"]
  /\ (forall map_script : string,
        exists others,
          painless_script map_script
          = JDict (("aggs",
                    JDict [("group_by_sl_met",
                            JDict [("scripted_metric",
                                    JDict [("map_script", JStr map_script);
                                           ("init_script", JStr init_script);
                                           ("reduce_script",
                                            JStr reduce_script);
                                           ("combine_script",
                                            JStr combine_script)])])])
                   :: others)).
Proof.
  split.
  - exists (slice 0 173 reduce_script), (slice 190 350 reduce_script),
      (drop 376 reduce_script).
    repeat split; reflexivity.
  - split; [reflexivity|].
    intro m. eexists. reflexivity.
Qed.

(** ** The formula of [Final_Performance] *)

Section FinalPerformance.

(** The then-branch of the script is the assignment of
    [final_performance_expr]. *)
Lemma final_performance_in_script :
  exists head tail,
    reduce_script
    = head ++ "if(new_map.den!=0){return_map.Final_Performance = "
      ++ Painless.show final_performance_expr ++ "}else{" ++ tail.
Proof.
  exists (slice 0 377 reduce_script), (drop 493 reduce_script).
  reflexivity.
Qed.

(** The two literals of the expression are exact. *)
Lemma scale_literals :
  Painless.literal "10000.0" = Painless.double_of_Z 10000
  /\ Painless.literal "100.0" = Painless.double_of_Z 100.
Proof. split; vm_compute; reflexivity. Qed.

(** The expression, operation by operation: the cast to [float], its
    promotion back to [double] for the division by [den], the product by
    10000, the floor, the division by 100. *)
Lemma final_performance_steps (num den : spec_float) :
  final_performance num den
  = SFdiv 53 1024
      (Painless.floor
         (SFmul 53 1024
            (SFdiv 53 1024
               (Painless.to_double (Painless.to_float num)) den)
            (Painless.double_of_Z 10000)))
      (Painless.double_of_Z 100).
Proof.
  unfold final_performance, final_performance_expr.
  cbn [Painless.eval Painless.binary Painless.as_double].
  destruct scale_literals as [-> ->].
  reflexivity.
Qed.

(** Single precision shows: 16777217 is not a [float], and the cast gives
    16777216. *)
Example final_performance_single_precision :
  final_performance (Painless.double_of_Z 16777217) (Painless.double_of_Z 1)
  = Painless.double_of_Z 1677721600.
Proof. vm_compute. reflexivity. Qed.

End FinalPerformance.

(** C8 (fails on the code).  With [num = 1.0] and [den = 2.0] the
    expression of the script gives 50.0 where the formula
    [floor(100.0 * num / den) / 100.0] gives 0.5: the script multiplies the
    quotient by 10000.0, not by 100.0, before the floor, and no product by
    100.0 stands in it. *)
Lemma final_performance_differs_from_stated_formula :
  final_performance (Painless.double_of_Z 1) (Painless.double_of_Z 2)
  = Painless.double_of_Z 50
  /\ spec_final_performance (Painless.double_of_Z 1) (Painless.double_of_Z 2)
     = Painless.literal "0.5"
  /\ SFeqb (final_performance (Painless.double_of_Z 1)
                              (Painless.double_of_Z 2))
           (spec_final_performance (Painless.double_of_Z 1)
                                   (Painless.double_of_Z 2)) = false
  /\ Py.str_in "*10000.0)/100.0" (Painless.show final_performance_expr)
     = true
  /\ Py.str_in "100.0*" reduce_script = false
  /\ Py.str_in "100.0 *" reduce_script = false.
Proof.
  split; [vm_compute; reflexivity|].
  split; [vm_compute; reflexivity|].
  split; [vm_compute; reflexivity|].
  repeat split; reflexivity.
Qed.

(** C8, as amended.  In the branch [new_map.den!=0] the script assigns to
    [Final_Performance] the expression
    [Math.floor((float)(new_map.num)/(new_map.den)*10000.0)/100.0].  In
    floating point that is: [num] rounded to single precision, divided by
    [den], the quotient multiplied by 10000, floored, and divided by 100;
    the ratio as a percentage, cut to two decimals up to the rounding of
    these operations (57.0 and 100.0 give 56.99). *)
Theorem final_performance_scales_by_ten_thousand :
  (exists head tail,
     reduce_script
     = head ++ "if(new_map.den!=0){return_map.Final_Performance = "
       ++ Painless.show final_performance_expr ++ "}else{" ++ tail)
  /\ Painless.show final_performance_expr
     = "Math.floor((float)(new_map.num)/(new_map.den)*10000.0)/100.0"
  /\ (forall num den : spec_float,
        final_performance num den
        = SFdiv 53 1024
            (Painless.floor
               (SFmul 53 1024
                  (SFdiv 53 1024
                     (Painless.to_double (Painless.to_float num)) den)
                  (Painless.double_of_Z 10000)))
            (Painless.double_of_Z 100))
  /\ final_performance (Painless.double_of_Z 57) (Painless.double_of_Z 100)
     = Painless.literal "56.99".
Proof.
  split; [exact final_performance_in_script|].
  split; [reflexivity|].
  split; [exact final_performance_steps|].
  vm_compute. reflexivity.
Qed.

(** * Further properties of [build_painless_script] *)

(** ** Missing columns *)

Section MissingColumn.

Lemma require_both_raise (t : texts) (e : exn) :
  require_both t = Raise e -> e = ValueError missing_rules_msg.
Proof.
  unfold require_both.
  destruct (unset (numerator_text t) || unset (denominator_text t)).
  - intro H. now injection H as <-.
  - destruct (numerator_text t), (denominator_text t);
      try discriminate; intro H; now injection H as <-.
Qed.

Lemma normalize_rows_ok (rows : DataFrame) :
  forallb nonempty_row rows = true ->
  normalize_rows rows = Ok (map normalized rows).
Proof.
  induction rows as [|r rows IH]; [reflexivity|].
  cbn [forallb]. intro H. apply andb_prop in H as [Hr Hrows].
  destruct r as [|c rest]; [discriminate Hr|].
  cbn [normalize_rows map]. rewrite (IH Hrows).
  now destruct c.
Qed.

Lemma scan_row_unlabelled (t : texts) (row : list cell) :
  first_is_text row = true -> labelled row = false -> scan_row t row = Ok t.
Proof.
  destruct row as [|c row]; [discriminate|].
  unfold labelled, labels_numerator, labels_denominator, scan_row, loc.
  cbn [nth_error bind].
  destruct c as [x| |x]; [|discriminate|]; intros _;
    (destruct (Py.str_in "numerator" _); [discriminate|]);
    cbn [negb andb orb]; now intros ->.
Qed.

Lemma scan_row_single (t : texts) (row : list cell) :
  first_is_text row = true ->
  labelled row = true -> single_cell row = true ->
  scan_row t row = Raise (KeyError 1).
Proof.
  destruct row as [|c [|c1 row]]; try discriminate. intros F H _.
  unfold labelled, labels_numerator, labels_denominator in H.
  unfold scan_row, loc. cbn [nth_error bind].
  destruct c as [x| |x]; [|discriminate F|];
    (destruct (Py.str_in "numerator" _); [reflexivity|]);
    cbn [negb andb orb] in H; now rewrite H.
Qed.

Lemma scan_row_two_cells (t : texts) (row : list cell) :
  first_is_text row = true -> single_cell row = false ->
  exists t', scan_row t row = Ok t'.
Proof.
  destruct row as [|c [|c1 row]]; try discriminate. intros F _.
  unfold scan_row, loc. cbn [nth_error bind].
  destruct c as [x| |x]; [|discriminate F|];
    (destruct (Py.str_in "numerator" _); [now eexists|]);
    (destruct (Py.str_in "denominator" _); now eexists).
Qed.

(** On rows whose first cell is not empty the scan stops with [KeyError]
    for column 1 when a labelled row has no second cell, and ends
    otherwise; it ends where it started when no row is labelled. *)
Lemma scan_outcome (rows : DataFrame) (t : texts) :
  forallb first_is_text rows = true ->
  (if existsb (fun r => labelled r && single_cell r) rows
   then scan t rows = Raise (KeyError 1)
   else exists t', scan t rows = Ok t')
  /\ (existsb labelled rows = false -> scan t rows = Ok t).
Proof.
  revert t. induction rows as [|r rows IH]; intros t H.
  - split; [now exists t | reflexivity].
  - cbn [forallb] in H. apply andb_prop in H as [Hr Hrows].
    cbn [existsb scan].
    destruct (labelled r) eqn:L; cbn [andb orb].
    + split; [|discriminate].
      destruct (single_cell r) eqn:S1; cbn [orb].
      * now rewrite (scan_row_single t r Hr L S1).
      * destruct (scan_row_two_cells t r Hr S1) as [t1 ->]. cbn [bind].
        apply (IH t1 Hrows).
    + rewrite (scan_row_unlabelled t r Hr L). cbn [bind].
      apply (IH t Hrows).
Qed.

Lemma normalized_shape (r : list cell) :
  first_is_text (normalized r) = first_is_text r
  /\ single_cell (normalized r) = single_cell r.
Proof. now destruct r as [|[x| |x] [|c1 r]]. Qed.

Lemma forallb_text_normalized (rows : DataFrame) :
  forallb first_is_text (map normalized rows) = forallb first_is_text rows.
Proof.
  induction rows as [|r rows IH]; [reflexivity|]. cbn [map forallb].
  now rewrite IH, (proj1 (normalized_shape r)).
Qed.

Lemma existsb_short_normalized (rows : DataFrame) :
  existsb (fun r => labelled r && single_cell r) (map normalized rows)
  = existsb (fun r => labelled (normalized r) && single_cell r) rows.
Proof.
  induction rows as [|r rows IH]; [reflexivity|]. cbn [map existsb].
  now rewrite IH, (proj2 (normalized_shape r)).
Qed.

Lemma existsb_labelled_normalized (rows : DataFrame) :
  existsb labelled (map normalized rows)
  = existsb (fun r => labelled (normalized r)) rows.
Proof.
  induction rows as [|r rows IH]; [reflexivity|]. cbn [map existsb].
  now rewrite IH.
Qed.

Lemma first_is_text_nonempty (rows : DataFrame) :
  forallb first_is_text rows = true -> forallb nonempty_row rows = true.
Proof.
  induction rows as [|r rows IH]; [reflexivity|]. cbn [forallb].
  intro H. apply andb_prop in H as [Hr Hrows]. rewrite (IH Hrows).
  now destruct r.
Qed.

(** Rows of width [n]: one cell when [n] is 1, more when [n] is larger. *)
Lemma width_single (n : nat) (rows : DataFrame) :
  width_is n rows = true ->
  forall f : list cell -> bool,
    existsb (fun r => f r && single_cell r) rows
    = if (n =? 1)%nat then existsb f rows else false.
Proof.
  intros H f. induction rows as [|r rows IH]; [now destruct (n =? 1)%nat|].
  cbn [width_is forallb] in H. apply andb_prop in H as [Hr Hrows].
  cbn [existsb]. rewrite (IH Hrows). apply Nat.eqb_eq in Hr. subst n.
  destruct r as [|c [|c1 r]]; cbn [single_cell List.length Nat.eqb];
    rewrite ?andb_true_r, ?andb_false_r; reflexivity.
Qed.

End MissingColumn.

(** X2.  Take a sheet with at least one row and no empty cell in its first
    column.  When it has a single column, the call raises [KeyError] for
    column 1 as soon as a row has numerator or denominator in its
    normalised first cell, and the [ValueError] for missing rules when
    no row has; it never writes a file.  When it has two columns or more
    the call never raises [KeyError]: it writes its document or raises
    the [ValueError] for missing rules. *)
Theorem key_error_on_one_column_sheet
    (w : world) (rules_excel output_json : string) (df : DataFrame)
    (n : nat) :
  workbooks w rules_excel = Some df ->
  df <> [] ->
  width_is n df = true ->
  forallb first_is_text df = true ->
  (n = 1 ->
   existsb (fun r => labelled (normalized r)) df = true ->
   build_painless_script w rules_excel output_json = (Some (KeyError 1), w))
  /\ (n = 1 ->
      existsb (fun r => labelled (normalized r)) df = false ->
      build_painless_script w rules_excel output_json
      = (Some (ValueError missing_rules_msg), w))
  /\ (2 <= n ->
      (exists doc,
         build_painless_script w rules_excel output_json
         = (None, written w output_json doc))
      \/ build_painless_script w rules_excel output_json
         = (Some (ValueError missing_rules_msg), w)).
Proof.
  intros Hw Hne Hwidth Htext.
  assert (N : normalize_first_column df = Ok (map normalized df)).
  { destruct df as [|r df]; [now elim Hne|].
    unfold normalize_first_column.
    now apply normalize_rows_ok, first_is_text_nonempty. }
  destruct (scan_outcome (map normalized df) no_texts) as [S U].
  { now rewrite forallb_text_normalized. }
  rewrite existsb_short_normalized,
    (width_single n df Hwidth (fun r => labelled (normalized r))) in S.
  rewrite existsb_labelled_normalized in U.
  unfold build_painless_script, generate. rewrite Hw, N. cbn [bind].
  split; [|split].
  - intros -> E. cbn [Nat.eqb] in S. rewrite E in S. now rewrite S.
  - intros _ E. now rewrite (U E).
  - intro Hn. destruct (n =? 1)%nat eqn:E1.
    + apply Nat.eqb_eq in E1. lia.
    + destruct S as [t ->]. cbn [bind].
      destruct (require_both t) as [[nt dt]|e] eqn:R; cbn [bind].
      * left. now eexists.
      * right. now rewrite (require_both_raise t e R).
Qed.

Lemma key_error_on_one_column_sheet_witness :
  build_painless_script (one_workbook one_column_labelled)
    "rules.xlsx" "generated_painless.json"
  = (Some (KeyError 1), one_workbook one_column_labelled)
  /\ build_painless_script (one_workbook one_column_plain)
       "rules.xlsx" "generated_painless.json"
     = (Some (ValueError missing_rules_msg), one_workbook one_column_plain)
  /\ ((exists doc,
         build_painless_script (one_workbook numerator_only)
           "rules.xlsx" "generated_painless.json"
         = (None, written (one_workbook numerator_only)
                          "generated_painless.json" doc))
      \/ build_painless_script (one_workbook numerator_only)
           "rules.xlsx" "generated_painless.json"
         = (Some (ValueError missing_rules_msg),
            one_workbook numerator_only)).
Proof.
  assert (N1 : one_column_labelled <> []) by discriminate.
  assert (N2 : one_column_plain <> []) by discriminate.
  assert (N3 : numerator_only <> []) by discriminate.
  split; [|split].
  - exact (proj1 (key_error_on_one_column_sheet
                    (one_workbook one_column_labelled) "rules.xlsx"
                    "generated_painless.json" one_column_labelled 1
                    eq_refl N1 eq_refl eq_refl) eq_refl eq_refl).
  - exact (proj1 (proj2 (key_error_on_one_column_sheet
                           (one_workbook one_column_plain) "rules.xlsx"
                           "generated_painless.json" one_column_plain 1
                           eq_refl N2 eq_refl eq_refl)) eq_refl eq_refl).
  - exact (proj2 (proj2 (key_error_on_one_column_sheet
                           (one_workbook numerator_only) "rules.xlsx"
                           "generated_painless.json" numerator_only 2
                           eq_refl N3 eq_refl eq_refl)) (le_n 2)).
Defined.

(** ** Which row sets a text *)

Section LastMatch.

Lemma scan_row_numerator (t : texts) (first : string) (c1 : cell)
    (rest : list cell) :
  Py.str_in "numerator" first = true ->
  scan_row t (CText first :: c1 :: rest)
  = Ok {| numerator_text := Some (Py.strip (py_str c1));
          denominator_text := denominator_text t |}.
Proof.
  intro H. unfold scan_row, loc. cbn [nth_error bind py_str].
  now rewrite H.
Qed.

Lemma scan_row_denominator (t : texts) (first : string) (c1 : cell)
    (rest : list cell) :
  Py.str_in "numerator" first = false ->
  Py.str_in "denominator" first = true ->
  scan_row t (CText first :: c1 :: rest)
  = Ok {| numerator_text := numerator_text t;
          denominator_text := Some (Py.strip (py_str c1)) |}.
Proof.
  intros H1 H2. unfold scan_row, loc. cbn [nth_error bind py_str].
  now rewrite H1, H2.
Qed.

(** An iteration that ends has gone through the two tests. *)
Lemma scan_row_ok_inv (t t1 : texts) (c : cell) (r : list cell) :
  scan_row t (c :: r) = Ok t1 ->
  (if Py.str_in "numerator" (py_str c)
   then c1 <- loc (c :: r) 1 ;;
        Ok {| numerator_text := Some (Py.strip (py_str c1));
              denominator_text := denominator_text t |}
   else if Py.str_in "denominator" (py_str c)
   then c1 <- loc (c :: r) 1 ;;
        Ok {| numerator_text := numerator_text t;
              denominator_text := Some (Py.strip (py_str c1)) |}
   else Ok t) = Ok t1.
Proof.
  unfold scan_row, loc. cbn [nth_error bind].
  destruct c; [trivial | discriminate | trivial].
Qed.

(** After a scan that ends, a text is [None] exactly when it was [None]
    before and no row of the frame sets it. *)
Lemma scan_none (df : DataFrame) (t0 t : texts) :
  scan t0 df = Ok t ->
  (numerator_text t = None
   <-> numerator_text t0 = None
       /\ forallb (fun r => negb (labels_numerator r)) df = true)
  /\ (denominator_text t = None
      <-> denominator_text t0 = None
          /\ forallb (fun r => negb (labels_denominator r)) df = true).
Proof.
  revert t0. induction df as [|r df IH]; intros t0; cbn [scan forallb].
  - intro H. injection H as <-. split; split; tauto.
  - destruct (scan_row t0 r) as [t1|e] eqn:E; cbn [bind]; [|discriminate].
    intro H. destruct (IH t1 H) as [IHn IHd]. clear IH H.
    rewrite IHn, IHd. clear IHn IHd.
    destruct r as [|c r]; [discriminate E|].
    apply scan_row_ok_inv in E. unfold loc in E. cbn [nth_error bind] in E.
    unfold labels_numerator, labels_denominator.
    destruct (Py.str_in "numerator" (py_str c)); cbn [negb andb].
    + destruct r as [|c1 r]; [discriminate E|].
      cbn [nth_error bind] in E. injection E as <-.
      cbn [numerator_text denominator_text].
      split; (split; intros [H1 H2];
              first [discriminate H1 | discriminate H2 | now split]).
    + destruct (Py.str_in "denominator" (py_str c)); cbn [negb andb].
      * destruct r as [|c1 r]; [discriminate E|].
        cbn [nth_error bind] in E. injection E as <-.
        cbn [numerator_text denominator_text].
        split; (split; intros [H1 H2];
                first [discriminate H1 | discriminate H2 | now split]).
      * injection E as <-. split; split; tauto.
Qed.

End LastMatch.

(** X3.  Among several rows with the same label the last one wins: when
    the scan of a frame ends, the numerator text is the trimmed second
    cell of the last row whose first cell contains numerator, and the
    denominator text is that of the last row whose first cell contains
    denominator and not numerator, whatever earlier rows had set. *)
Theorem last_labelled_row_wins
    (t0 t : texts) (before after : DataFrame)
    (first : string) (c1 : cell) (rest : list cell) :
  scan t0 (before ++ (CText first :: c1 :: rest) :: after)%list = Ok t ->
  (Py.str_in "numerator" first = true ->
   forallb (fun r => negb (labels_numerator r)) after = true ->
   numerator_text t = Some (Py.strip (py_str c1)))
  /\ (Py.str_in "numerator" first = false ->
      Py.str_in "denominator" first = true ->
      forallb (fun r => negb (labels_denominator r)) after = true ->
      denominator_text t = Some (Py.strip (py_str c1))).
Proof.
  intro Hs. rewrite scan_app in Hs.
  destruct (scan t0 before) as [tb|e]; [|discriminate Hs].
  cbn [bind scan] in Hs. split.
  - intros Hn Hafter. rewrite (scan_row_numerator tb _ _ _ Hn) in Hs.
    cbn [bind] in Hs.
    now rewrite (scan_keeps_numerator after _ t Hafter Hs).
  - intros Hn Hd Hafter. rewrite (scan_row_denominator tb _ _ _ Hn Hd) in Hs.
    cbn [bind] in Hs.
    now rewrite (scan_keeps_denominator after _ t Hafter Hs).
Qed.

Lemma last_labelled_row_wins_witness :
  scan no_texts two_numerators
  = Ok {| numerator_text := Some "second"; denominator_text := None |}
  /\ numerator_text
       {| numerator_text := Some "second"; denominator_text := None |}
     = Some (Py.strip "  second  ").
Proof.
  split; [reflexivity|].
  exact (proj1 (last_labelled_row_wins
                  no_texts
                  {| numerator_text := Some "second";
                     denominator_text := None |}
                  [[CText "numerator"; CText "first"]]
                  [[CText "other"; CText "ignored"]]
                  "numerator" (CText "  second  ") [] eq_refl)
               eq_refl eq_refl).
Defined.

(** X4.  When the scan of a frame ends, the numerator text is still
    [None] exactly when no row has numerator in its first cell, and the
    denominator text is still [None] exactly when no row has denominator
    without numerator in its first cell. *)
Theorem text_is_none_iff_no_labelled_row (df : DataFrame) (t : texts) :
  scan no_texts df = Ok t ->
  (numerator_text t = None
   <-> forallb (fun r => negb (labels_numerator r)) df = true)
  /\ (denominator_text t = None
      <-> forallb (fun r => negb (labels_denominator r)) df = true).
Proof.
  intro H. destruct (scan_none df no_texts t H) as [Hn Hd].
  cbn [no_texts numerator_text denominator_text] in Hn, Hd.
  split; [rewrite Hn | rewrite Hd]; tauto.
Qed.

Lemma text_is_none_iff_no_labelled_row_witness :
  scan no_texts two_numerators
  = Ok {| numerator_text := Some "second"; denominator_text := None |}
  /\ forallb (fun r => negb (labels_denominator r)) two_numerators = true
  /\ forallb (fun r => negb (labels_numerator r)) two_numerators = false.
Proof.
  split; [reflexivity|].
  destruct (text_is_none_iff_no_labelled_row
              two_numerators
              {| numerator_text := Some "second"; denominator_text := None |}
              eq_refl) as [_ Hd].
  split; [now apply Hd | reflexivity].
Defined.

(** ** The successful call *)

Section Success.

Lemma build_ok (w : world) (rules_excel output_json : string)
    (df df' : DataFrame) (n d : string) :
  workbooks w rules_excel = Some df ->
  normalize_first_column df = Ok df' ->
  scan no_texts df'
  = Ok {| numerator_text := Some n; denominator_text := Some d |} ->
  n <> EmptyString -> d <> EmptyString ->
  build_painless_script w rules_excel output_json
  = (None, written w output_json (painless_script (map_script n d))).
Proof.
  intros Hw Hn Hs Hne Hde. unfold build_painless_script.
  now rewrite (generate_ok w rules_excel df df' n d Hw Hn Hs Hne Hde).
Qed.

End Success.

(** X6.  An empty rule cell is not a missing rule.  When the last
    numerator row of the frame has an empty cell (NaN) as its second cell
    the numerator text is the three letters that [str] prints for NaN: it
    passes the check, no condition is parsed from it, and with a
    denominator text that is not empty the call writes a document whose
    map script is two spaces and the denominator statement. *)
Theorem blank_rule_cell_is_accepted
    (w : world) (rules_excel output_json : string)
    (df before after : DataFrame) (t : texts)
    (first d : string) (rest : list cell) :
  workbooks w rules_excel = Some df ->
  normalize_first_column df
  = Ok (before ++ (CText first :: CNaN :: rest) :: after)%list ->
  scan no_texts (before ++ (CText first :: CNaN :: rest) :: after)%list
  = Ok t ->
  Py.str_in "numerator" first = true ->
  forallb (fun r => negb (labels_numerator r)) after = true ->
  denominator_text t = Some d ->
  d <> EmptyString ->
  numerator_text t = Some "nan"
  /\ build_painless_script w rules_excel output_json
     = (None,
        written w output_json (painless_script ("  " ++ parse_rules d))).
Proof.
  intros Hw Hn Hs Hfirst Hafter Hd Hde.
  assert (Ht : numerator_text t = Some "nan").
  { pose proof Hs as Hs'. rewrite scan_app in Hs'.
    destruct (scan no_texts before) as [tb|e]; [|discriminate Hs'].
    cbn [bind scan] in Hs'.
    rewrite (scan_row_numerator tb _ _ _ Hfirst) in Hs'. cbn [bind] in Hs'.
    now rewrite (scan_keeps_numerator after _ t Hafter Hs'). }
  split; [exact Ht|].
  destruct t as [tn td]. cbn [numerator_text denominator_text] in Ht, Hd.
  subst tn td.
  assert (Hnan : "nan" <> EmptyString) by discriminate.
  now rewrite (build_ok w _ output_json df _ "nan" d Hw Hn Hs Hnan Hde).
Qed.

Lemma blank_rule_cell_is_accepted_witness :
  build_painless_script (one_workbook blank_numerator)
    "rules.xlsx" "generated_painless.json"
  = (None,
     written (one_workbook blank_numerator) "generated_painless.json"
       (painless_script ("  " ++ parse_rules filter_line))).
Proof.
  assert (Hd : filter_line <> EmptyString) by discriminate.
  exact (proj2 (blank_rule_cell_is_accepted
                  (one_workbook blank_numerator) "rules.xlsx"
                  "generated_painless.json" blank_numerator
                  [] [[CText "denominator"; CText filter_line]]
                  {| numerator_text := Some "nan";
                     denominator_text := Some filter_line |}
                  "numerator" filter_line []
                  eq_refl eq_refl eq_refl eq_refl eq_refl eq_refl Hd)).
Defined.

(** * Further properties of [parse_rules] *)

(** ** Blanks around a line *)

Section Blanks.

Lemma lstrip_blank (l : string) :
  all Py.is_space l = true -> Py.lstrip l = EmptyString.
Proof.
  induction l as [|a l IH]; [reflexivity|]. cbn [all Py.lstrip].
  intro H. apply andb_prop in H as [Ha Hl]. now rewrite Ha, IH.
Qed.

Lemma lstrip_app_blank (l s : string) :
  all Py.is_space l = true -> Py.lstrip (l ++ s) = Py.lstrip s.
Proof.
  induction l as [|a l IH]; [reflexivity|]. cbn [all append Py.lstrip].
  intro H. apply andb_prop in H as [Ha Hl]. now rewrite Ha, IH.
Qed.

Lemma rstrip_blank (r : string) :
  all Py.is_space r = true -> Py.rstrip r = EmptyString.
Proof.
  induction r as [|a r IH]; [reflexivity|]. cbn [all Py.rstrip].
  intro H. apply andb_prop in H as [Ha Hr]. now rewrite (IH Hr), Ha.
Qed.

Lemma rstrip_app_blank (s r : string) :
  all Py.is_space r = true -> Py.rstrip (s ++ r) = Py.rstrip s.
Proof.
  intro H. induction s as [|a s IH].
  - now apply rstrip_blank.
  - cbn [append Py.rstrip]. now rewrite IH.
Qed.

Lemma strip_app_blank (s r : string) :
  all Py.is_space r = true -> Py.strip (s ++ r) = Py.strip s.
Proof.
  intro H. unfold Py.strip. induction s as [|a s IH].
  - cbn [append]. now rewrite (lstrip_blank r H).
  - cbn [append Py.lstrip]. destruct (Py.is_space a); [exact IH|].
    exact (rstrip_app_blank (String a s) r H).
Qed.

Lemma strip_blanks_around (l s r : string) :
  all Py.is_space l = true -> all Py.is_space r = true ->
  Py.strip (l ++ s ++ r) = Py.strip s.
Proof.
  intros Hl Hr. rewrite <- (strip_app_blank s r Hr).
  unfold Py.strip. now rewrite (lstrip_app_blank l (s ++ r) Hl).
Qed.

(** An iteration reads its line through [strip] only. *)
Lemma loop_body_strip (conditions : list string) (a b : string) :
  Py.strip a = Py.strip b -> loop_body conditions a = loop_body conditions b.
Proof. intro H. unfold loop_body. now rewrite H. Qed.

End Blanks.

(** X7.  Whitespace before and after a rule line does not matter: a line
    between two runs of whitespace (indentation, trailing blanks, the
    carriage return that a split on line feeds leaves at the end of a line)
    adds to the conditions what the bare line adds. *)
Theorem blanks_around_line_are_ignored
    (conditions : list string) (l line r : string) :
  all Py.is_space l = true ->
  all Py.is_space r = true ->
  loop_body conditions (l ++ line ++ r) = loop_body conditions line.
Proof.
  intros Hl Hr. apply loop_body_strip. now apply strip_blanks_around.
Qed.

Lemma blanks_around_line_are_ignored_witness :
  loop_body [] ("    " ++ exclude_line
                ++ String (ascii_of_nat 13) EmptyString)
  = ["params['_source']['A (ColA Name)']!= 'val1'"].
Proof.
  rewrite (blanks_around_line_are_ignored
             [] "    " exclude_line (String (ascii_of_nat 13) EmptyString)
             eq_refl eq_refl).
  reflexivity.
Defined.

(** ** Blocks of several lines *)

Section Blocks.

Lemma split_lines_not_nil (s : string) : Py.split_lines s <> [].
Proof.
  destruct s as [|a s]; [discriminate|]. cbn [Py.split_lines].
  destruct (Ascii.eqb a Py.LF); [discriminate|].
  destruct (Py.split_lines s); discriminate.
Qed.

Lemma split_lines_app (a b : string) :
  Py.split_lines (a ++ String Py.LF b)
  = (Py.split_lines a ++ Py.split_lines b)%list.
Proof.
  induction a as [|c a IH].
  - cbn [append Py.split_lines]. now rewrite Ascii.eqb_refl.
  - cbn [append Py.split_lines]. rewrite IH.
    destruct (Ascii.eqb c Py.LF); [reflexivity|].
    pose proof (split_lines_not_nil a) as N.
    destruct (Py.split_lines a) as [|l ls]; [now elim N | reflexivity].
Qed.

Lemma split_lines_length (s : string) :
  List.length (Py.split_lines s) = S (count_lf s).
Proof.
  induction s as [|a s IH]; [reflexivity|]. cbn [Py.split_lines count_lf].
  destruct (Ascii.eqb a Py.LF); cbn [List.length]; [now rewrite IH|].
  pose proof (split_lines_not_nil s) as N.
  destruct (Py.split_lines s) as [|l ls]; [now elim N | exact IH].
Qed.

Lemma loop_body_at_most_one (line : string) :
  List.length (loop_body [] line) <= 1.
Proof.
  unfold loop_body.
  repeat match goal with
         | |- context [match ?x with _ => _ end] => destruct x
         end; cbn [List.length app]; lia.
Qed.

Lemma flat_map_at_most_one {A B : Type} (f : A -> list B) (l : list A) :
  (forall a, List.length (f a) <= 1) ->
  List.length (flat_map f l) <= List.length l.
Proof.
  intro H. induction l as [|a l IH]; [reflexivity|].
  cbn [flat_map]. rewrite length_app. cbn [List.length].
  specialize (H a). lia.
Qed.

Lemma conditions_of_app (a b : string) :
  conditions_of (a ++ String Py.LF b)
  = (conditions_of a ++ conditions_of b)%list.
Proof.
  rewrite !conditions_of_lines, split_lines_app. apply flat_map_app.
Qed.

End Blocks.

(** X8.  The conditions of two blocks joined by a line feed are those of
    the first block followed by those of the second.  So a block followed
    by lines that give no condition compiles to the same statement as the
    block alone, and so does a block that follows such lines. *)
Theorem conditions_of_joined_blocks (a b : string) :
  conditions_of (a ++ String Py.LF b)
  = (conditions_of a ++ conditions_of b)%list
  /\ (conditions_of b = [] ->
      parse_rules (a ++ String Py.LF b) = parse_rules a)
  /\ (conditions_of a = [] ->
      parse_rules (a ++ String Py.LF b) = parse_rules b).
Proof.
  split; [apply conditions_of_app|].
  split; intro H; unfold parse_rules; rewrite conditions_of_app, H.
  - now rewrite app_nil_r.
  - reflexivity.
Qed.

(** X9.  Each line gives at most one condition: a block never has more
    conditions than lines, that is, than one more than its line feeds. *)
Theorem at_most_one_condition_per_line (rule_text : string) :
  List.length (conditions_of rule_text) <= S (count_lf rule_text).
Proof.
  rewrite conditions_of_lines, <- split_lines_length.
  apply flat_map_at_most_one, loop_body_at_most_one.
Qed.

(** ** The branches of the loop *)

Section Branches.

Lemma loop_body_appended (conditions : list string) (raw : string) :
  loop_body conditions raw = (conditions ++ appended (Py.strip raw))%list.
Proof.
  unfold loop_body, appended.
  destruct (Py.strip raw) as [|a s].
  - cbn. now rewrite app_nil_r.
  - cbn [Py.truthy negb].
    destruct (Re.search col_pattern (String a s)) as [C|];
      [|now rewrite app_nil_r].
    destruct (Re.search val_pattern (String a s)) as [V|];
      [|now rewrite app_nil_r].
    destruct (Py.str_in "exclude" (Py.lower (String a s))); [reflexivity|].
    destruct (Py.str_in "filter" (Py.lower (String a s))) eqn:F.
    + now destruct (Py.str_in "contain" (Py.lower (String a s))).
    + destruct (Py.str_in "unfilter" (Py.lower (String a s))) eqn:U.
      * apply (str_in_tail "un" "filter") in U. congruence.
      * now rewrite app_nil_r.
Qed.

End Branches.


(** X10.  An iteration appends a condition only when both patterns match
    the stripped line and the line contains exclude or filter; the
    inequality when it contains exclude, the equality otherwise.  The
    branch for unfilter never decides, the test for contain changes
    nothing, and an empty line or a line with no keyword leaves the list as
    it is. *)
Theorem loop_body_is_two_keywords (conditions : list string) (raw : string) :
  loop_body conditions raw = (conditions ++ appended (Py.strip raw))%list
  /\ (Py.str_in "exclude" (Py.lower (Py.strip raw)) = false ->
      Py.str_in "filter" (Py.lower (Py.strip raw)) = false ->
      loop_body conditions raw = conditions)
  /\ (Py.strip raw = EmptyString -> loop_body conditions raw = conditions).
Proof.
  pose proof (loop_body_appended conditions raw) as E.
  split; [exact E|]. split.
  - intros H1 H2. rewrite E. unfold appended. rewrite H1, H2.
    destruct (Re.search col_pattern (Py.strip raw));
      [destruct (Re.search val_pattern (Py.strip raw))|];
      now rewrite app_nil_r.
  - intro H. rewrite E, H. cbn. now rewrite app_nil_r.
Qed.

(** ** The column pattern *)

Section ColumnPattern.

Lemma push_all_closed (run : string) (k : Re.capture) :
  Re.is_open k = false -> push_all run k = k.
Proof.
  intro Hk. induction run as [|a run IH]; [reflexivity|].
  cbn [push_all]. unfold Re.push. now rewrite Hk.
Qed.

(** A literal word in front of a pattern. *)
Lemma match_lit (w : string) (pat : Re.pattern) (s : string)
    (k : Re.capture) :
  Re.match_here (Re.lit w ++ pat)%list s k
  = match drop_prefix w s with
    | Some s' => Re.match_here pat s' (push_all w k)
    | None => None
    end.
Proof.
  revert s k. induction w as [|c w IH]; intros s k; [reflexivity|].
  cbn [Re.lit app Re.match_here drop_prefix push_all].
  destruct s as [|a s]; [reflexivity|].
  destruct (Ascii.eqb a c) eqn:E; [|reflexivity].
  apply Ascii.eqb_eq in E. subst a. apply IH.
Qed.

Lemma space_is_not_dq (a : ascii) :
  Py.is_space a = true -> Ascii.eqb a dq = false.
Proof.
  intro H. destruct (Ascii.eqb a dq) eqn:E; [|reflexivity].
  apply Ascii.eqb_eq in E. subst a. discriminate H.
Qed.

(** The matcher on [col_pattern] computes [col_here]. *)
Lemma match_col_here (s : string) :
  Re.match_here col_pattern s Re.no_capture = col_here s.
Proof.
  unfold col_pattern, col_here. rewrite match_lit.
  destruct (drop_prefix "column" s) as [s1|]; [|reflexivity].
  rewrite push_all_closed by reflexivity.
  cbn [Re.match_here]. rewrite many_det.
  2:{ intros a s' k Ha. now rewrite (space_is_not_dq a Ha). }
  destruct (span Py.is_space s1) as [blanks t]. cbn [negb orb].
  destruct blanks as [|b0 blanks]; [reflexivity|]. cbn [Py.truthy].
  rewrite push_all_closed by reflexivity.
  destruct t as [|b t']; [reflexivity|].
  destruct (Ascii.eqb b dq) eqn:Eb; [|reflexivity].
  rewrite many_det.
  2:{ intros a s' k Ha. cbn [Re.match_here]. unfold not_dq in Ha.
      destruct (Ascii.eqb a dq); [discriminate Ha | reflexivity]. }
  destruct (span not_dq t') as [run u]. cbn [negb orb].
  destruct run as [|r0 run]; [reflexivity|]. cbn [Py.truthy].
  rewrite push_all_open by reflexivity.
  cbn [Re.match_here].
  destruct u as [|d u']; [reflexivity|].
  destruct (Ascii.eqb d dq); reflexivity.
Qed.

Lemma search_col_step (s : string) :
  Re.search col_pattern s
  = match col_here s with
    | Some r => Some r
    | None =>
        match s with
        | EmptyString => None
        | String _ s' => Re.search col_pattern s'
        end
    end.
Proof. destruct s; cbn [Re.search]; now rewrite match_col_here. Qed.

Lemma drop_prefix_sound (w s s' : string) :
  drop_prefix w s = Some s' -> s = w ++ s'.
Proof.
  revert s. induction w as [|c w IH]; intros s; cbn [drop_prefix].
  - intro H. now injection H as <-.
  - destruct s as [|a s]; [discriminate|].
    destruct (Ascii.eqb a c) eqn:E; [|discriminate].
    apply Ascii.eqb_eq in E. subst a. intro H. now rewrite (IH _ H).
Qed.

Lemma drop_prefix_app (w s : string) : drop_prefix w (w ++ s) = Some s.
Proof.
  induction w as [|c w IH]; [reflexivity|].
  cbn [append drop_prefix]. now rewrite Ascii.eqb_refl.
Qed.

Lemma drop_prefix_prefix (w s s' : string) :
  drop_prefix w s = Some s' -> String.prefix w s = true.
Proof.
  intro H. rewrite (drop_prefix_sound _ _ _ H). apply prefix_app.
Qed.

Lemma col_here_sound (s C : string) :
  col_here s = Some C ->
  exists blanks post,
    s = "column" ++ blanks ++ quoted C ++ post
    /\ Py.truthy blanks = true /\ all Py.is_space blanks = true
    /\ Py.truthy C = true /\ all not_dq C = true.
Proof.
  unfold col_here.
  destruct (drop_prefix "column" s) as [s1|] eqn:D; [|discriminate].
  apply drop_prefix_sound in D. subst s.
  destruct (span Py.is_space s1) as [blanks t] eqn:E1.
  destruct blanks as [|b0 blanks]; [discriminate|].
  destruct t as [|b t']; [discriminate|].
  destruct (Ascii.eqb b dq) eqn:Eb; [|discriminate].
  apply Ascii.eqb_eq in Eb. subst b.
  destruct (span not_dq t') as [run u] eqn:E2.
  destruct run as [|r0 run]; [discriminate|].
  destruct u as [|d u']; [discriminate|].
  destruct (Ascii.eqb d dq) eqn:Ed; [|discriminate].
  apply Ascii.eqb_eq in Ed. subst d.
  intro H. injection H as <-.
  destruct (span_spec _ _ _ _ E1) as [-> Hb].
  destruct (span_spec _ _ _ _ E2) as [-> Hr].
  exists (String b0 blanks), u'. rewrite quoted_app. now repeat split.
Qed.

Lemma col_here_complete (blanks C post : string) :
  Py.truthy blanks = true -> all Py.is_space blanks = true ->
  Py.truthy C = true -> all not_dq C = true ->
  col_here ("column" ++ blanks ++ quoted C ++ post) = Some C.
Proof.
  intros Tb Hb TC HC. unfold col_here.
  rewrite drop_prefix_app, quoted_app.
  rewrite (span_app Py.is_space blanks _ dq Hb eq_refl).
  destruct blanks as [|b0 blanks]; [discriminate Tb|].
  rewrite Ascii.eqb_refl, (span_app not_dq C post dq HC dq_not_not_dq).
  destruct C as [|c0 C]; [discriminate TC|].
  now rewrite Ascii.eqb_refl.
Qed.

Lemma search_col_sound (s C : string) :
  Re.search col_pattern s = Some C ->
  exists pre blanks post,
    s = pre ++ "column" ++ blanks ++ quoted C ++ post
    /\ Py.truthy blanks = true /\ all Py.is_space blanks = true
    /\ Py.truthy C = true /\ all not_dq C = true.
Proof.
  induction s as [|c s IH]; rewrite search_col_step.
  - discriminate.
  - destruct (col_here (String c s)) as [r|] eqn:E.
    + intro H. injection H as ->.
      destruct (col_here_sound _ _ E) as (blanks & post & Hs & H).
      now exists EmptyString, blanks, post.
    + intro H. destruct (IH H) as (pre & blanks & post & -> & Hrest).
      now exists (String c pre), blanks, post.
Qed.

(** A prefix of a string that fits in the first part of it. *)
Lemma prefix_within (w u z : string) :
  String.prefix w (u ++ z) = true ->
  String.length w <= String.length u ->
  String.prefix w u = true.
Proof.
  revert u. induction w as [|c w IH]; intros u H L.
  - now destruct u.
  - destruct u as [|a u]; [cbn in L; lia|].
    cbn [append String.prefix] in H |- *.
    destruct (ascii_dec c a); [|discriminate H].
    apply IH; [exact H | cbn in L; lia].
Qed.

Lemma length_app_s (a b : string) :
  String.length (a ++ b) = String.length a + String.length b.
Proof. induction a as [|x a IH]; cbn; [reflexivity | now rewrite IH]. Qed.

Lemma search_col_complete (pre blanks C post : string) :
  Py.str_in "column" (pre ++ "colum") = false ->
  Py.truthy blanks = true -> all Py.is_space blanks = true ->
  Py.truthy C = true -> all not_dq C = true ->
  Re.search col_pattern (pre ++ "column" ++ blanks ++ quoted C ++ post)
  = Some C.
Proof.
  intros Hpre Tb Hb TC HC. induction pre as [|c pre IH].
  - change (EmptyString ++ "column" ++ blanks ++ quoted C ++ post)
      with ("column" ++ blanks ++ quoted C ++ post).
    rewrite search_col_step. now rewrite col_here_complete.
  - change (Py.str_in "column" (String c pre ++ "colum"))
      with (if String.prefix "column" (String c pre ++ "colum")
            then true else Py.str_in "column" (pre ++ "colum")) in Hpre.
    destruct (String.prefix "column" (String c pre ++ "colum")) eqn:P;
      [discriminate Hpre|].
    rewrite search_col_step.
    destruct (col_here (String c pre ++ "column" ++ blanks ++ quoted C ++ post))
      as [r|] eqn:E.
    + exfalso. unfold col_here in E.
      destruct (drop_prefix "column"
                  (String c pre ++ "column" ++ blanks ++ quoted C ++ post))
        as [s1|] eqn:D; [|discriminate E].
      apply drop_prefix_prefix in D.
      replace (String c pre ++ "column" ++ blanks ++ quoted C ++ post)
        with ((String c pre ++ "colum")
              ++ ("n" ++ blanks ++ quoted C ++ post)) in D
        by (rewrite app_assoc_s; reflexivity).
      apply prefix_within in D; [congruence|].
      rewrite length_app_s. cbn. lia.
    + apply IH. exact Hpre.
Qed.

End ColumnPattern.

(** X11.  The column name that the parser extracts is the quoted token
    that follows the first occurrence of the word column (in lower case)
    and a run of whitespace: whenever a name is returned the line reads
    so, the name is not empty and has no double quote in it; and a line
    that reads so, with no earlier occurrence of the word, returns that
    name. *)
Theorem column_name_is_token_after_column :
  (forall line C : string,
     Re.search col_pattern line = Some C ->
     exists pre blanks post,
       line = pre ++ "column" ++ blanks ++ quoted C ++ post
       /\ blanks <> EmptyString /\ all Py.is_space blanks = true
       /\ C <> EmptyString /\ all not_dq C = true)
  /\ (forall pre blanks C post : string,
        Py.str_in "column" (pre ++ "colum") = false ->
        blanks <> EmptyString -> all Py.is_space blanks = true ->
        C <> EmptyString -> all not_dq C = true ->
        Re.search col_pattern (pre ++ "column" ++ blanks ++ quoted C ++ post)
        = Some C).
Proof.
  split.
  - intros line C H.
    destruct (search_col_sound _ _ H)
      as (pre & blanks & post & E & Tb & Hb & TC & HC).
    exists pre, blanks, post. rewrite <- !truthy_iff. now repeat split.
  - intros pre blanks C post Hpre Tb Hb TC HC.
    apply search_col_complete; try assumption; now apply truthy_iff.
Qed.

Lemma column_name_is_token_after_column_witness :
  Re.search col_pattern
    ("1. Exclude line where " ++ "column" ++ " " ++ quoted "A (ColA Name)"
     ++ " = " ++ quoted "val1")
  = Some "A (ColA Name)".
Proof.
  assert (N1 : " " <> EmptyString) by discriminate.
  assert (N2 : "A (ColA Name)" <> EmptyString) by discriminate.
  exact (proj2 column_name_is_token_after_column
           "1. Exclude line where " " " "A (ColA Name)"
           (" = " ++ quoted "val1") eq_refl N1 eq_refl N2 eq_refl).
Defined.

(** ** What the compiled statement is made of *)

Section Shape.

Lemma appended_comparison (line c : string) :
  In c (appended line) -> comparison c.
Proof.
  unfold appended.
  destruct (Re.search col_pattern line) as [C|] eqn:EC; [|intros []].
  destruct (Re.search val_pattern line) as [V|] eqn:EV; [|intros []].
  destruct (search_col_sound _ _ EC) as (_ & _ & _ & _ & _ & _ & TC & HC).
  destruct (search_val_sound _ _ EV) as (_ & _ & _ & TV & HV & _).
  apply truthy_iff in TC, TV.
  destruct (Py.str_in "exclude" (Py.lower line));
    [|destruct (Py.str_in "filter" (Py.lower line)); [|intros []]];
    (intros [<-|[]]; exists C, V; repeat split; auto).
Qed.

Lemma conditions_are_comparisons (rule_text c : string) :
  In c (conditions_of rule_text) -> comparison c.
Proof.
  rewrite conditions_of_lines. intro H.
  apply in_flat_map in H as (line & _ & H).
  rewrite loop_body_appended in H.
  exact (appended_comparison (Py.strip line) c H).
Qed.

Lemma comparison_no_dq (c : string) : comparison c -> all not_dq c = true.
Proof.
  intros (C & V & [-> | ->] & _ & HC & _ & HV);
    unfold fmt_ne, fmt_eq; rewrite !all_app, HC, HV; reflexivity.
Qed.

Lemma join_no_dq (sep : string) (l : list string) :
  all not_dq sep = true ->
  (forall c, In c l -> all not_dq c = true) ->
  all not_dq (Py.join sep l) = true.
Proof.
  intros Hsep. unfold Py.join. induction l as [|x l IH]; [reflexivity|].
  intro H. destruct l as [|y l].
  - apply H. now left.
  - change (String.concat sep (x :: y :: l))
      with (x ++ sep ++ String.concat sep (y :: l)).
    rewrite !all_app, Hsep, (H x (or_introl eq_refl)).
    cbn [andb]. apply IH. intros c Hc. apply H. now right.
Qed.

Lemma parse_rules_no_dq (rule_text : string) :
  all not_dq (parse_rules rule_text) = true.
Proof.
  unfold parse_rules.
  pose proof (conditions_are_comparisons rule_text) as H.
  destruct (conditions_of rule_text) as [|x l]; [reflexivity|].
  cbv zeta. rewrite !all_app.
  rewrite (join_no_dq " && " (x :: l) eq_refl
             (fun c Hc => comparison_no_dq c (H c Hc))).
  reflexivity.
Qed.

End Shape.

(** X12.  Every condition of a block is a comparison of a column name
    with a value, both not empty and without a double quote, written as
    the inequality or as the equality of the two f-strings.  No double
    quote ever reaches the output: neither the compiled statement of a
    block nor the map script of two blocks has one. *)
Theorem compiled_statement_has_no_double_quote
    (numerator_text denominator_text : string) :
  (forall c, In c (conditions_of numerator_text) -> comparison c)
  /\ all not_dq (parse_rules numerator_text) = true
  /\ all not_dq (map_script numerator_text denominator_text) = true.
Proof.
  split; [apply conditions_are_comparisons|].
  split; [apply parse_rules_no_dq|].
  unfold map_script. cbv zeta.
  now rewrite !all_app, !parse_rules_no_dq.
Qed.

(** ** Letter case *)

Section LetterCase.

Lemma lower_app (a b : string) :
  Py.lower (a ++ b) = Py.lower a ++ Py.lower b.
Proof.
  induction a as [|x a IH]; [reflexivity|]. cbn [append Py.lower].
  now rewrite IH.
Qed.

Lemma str_in_lower (pre w post : string) :
  Py.str_in (Py.lower w) (Py.lower (pre ++ w ++ post)) = true.
Proof. rewrite !lower_app. apply str_in_app. Qed.

Lemma str_in_true_app (sub pre s : string) :
  Py.str_in sub s = true -> Py.str_in sub (pre ++ s) = true.
Proof.
  intro H. induction pre as [|x pre IH]; [exact H|].
  change (Py.str_in sub (String x (pre ++ s)) = true).
  now apply str_in_cons.
Qed.

Lemma col_needs_lower_case_word (line : string) :
  Py.str_in "column" line = false -> Re.search col_pattern line = None.
Proof.
  intro H. destruct (Re.search col_pattern line) as [C|] eqn:E;
    [|reflexivity].
  destruct (search_col_sound _ _ E) as (pre & blanks & post & -> & _).
  now rewrite str_in_app in H.
Qed.

End LetterCase.

(** X13.  The keywords exclude and filter are found whatever the case of
    their letters, the word column only in lower case.  A stripped line
    that holds any spelling of exclude compiles to the inequality, one
    that holds any spelling of filter and no exclude to the equality; a
    line in which column is not written in lower case gives no
    condition, whatever else it holds. *)
Theorem keywords_in_any_case_column_in_lower_case
    (conditions : list string) (raw : string) :
  (forall pre w post C V,
     Py.strip raw = pre ++ w ++ post ->
     Py.lower w = "exclude" ->
     Re.search col_pattern (Py.strip raw) = Some C ->
     Re.search val_pattern (Py.strip raw) = Some V ->
     loop_body conditions raw = (conditions ++ [fmt_ne C V])%list)
  /\ (forall pre w post C V,
        Py.strip raw = pre ++ w ++ post ->
        Py.lower w = "filter" ->
        Py.str_in "exclude" (Py.lower (Py.strip raw)) = false ->
        Re.search col_pattern (Py.strip raw) = Some C ->
        Re.search val_pattern (Py.strip raw) = Some V ->
        loop_body conditions raw = (conditions ++ [fmt_eq C V])%list)
  /\ (Py.str_in "column" (Py.strip raw) = false ->
      loop_body conditions raw = conditions).
Proof.
  split; [|split].
  - intros pre w post C V Hs Hw HC HV.
    apply loop_body_exclude; [exact HC | exact HV|].
    rewrite Hs, <- Hw. apply str_in_lower.
  - intros pre w post C V Hs Hw HE HC HV.
    apply loop_body_filter; [exact HC | exact HV | exact HE|].
    rewrite Hs, <- Hw. apply str_in_lower.
  - intro H. rewrite loop_body_appended. unfold appended.
    rewrite (col_needs_lower_case_word _ H). apply app_nil_r.
Qed.

Lemma keywords_in_any_case_column_in_lower_case_witness :
  loop_body [] shouted_line = ["params['_source']['A']!= 'x'"]
  /\ loop_body [] capital_column_line = [].
Proof.
  split.
  - exact (proj1 (keywords_in_any_case_column_in_lower_case [] shouted_line)
             EmptyString "EXCLUDE"
             (" line where column " ++ quoted "A" ++ " = " ++ quoted "x")
             "A" "x" eq_refl eq_refl eq_refl eq_refl).
  - exact (proj2 (proj2 (keywords_in_any_case_column_in_lower_case
                           [] capital_column_line)) eq_refl).
Defined.

(** X14.  A line with no other quoted token after the column name takes
    the name as the value too: when the first occurrence of the word
    column is followed by whitespace and a quoted token C that ends the
    line (but for whitespace), both patterns return C, and a line with
    exclude compiles to the comparison of column C with the text C. *)
Theorem lone_token_is_name_and_value
    (conditions : list string) (raw pre blanks C ws : string) :
  Py.strip raw = pre ++ "column" ++ blanks ++ quoted C ++ ws ->
  Py.str_in "column" (pre ++ "colum") = false ->
  blanks <> EmptyString -> all Py.is_space blanks = true ->
  C <> EmptyString -> all not_dq C = true ->
  all Py.is_space ws = true ->
  Re.search col_pattern (Py.strip raw) = Some C
  /\ Re.search val_pattern (Py.strip raw) = Some C
  /\ (Py.str_in "exclude" (Py.lower (Py.strip raw)) = true ->
      loop_body conditions raw = (conditions ++ [fmt_ne C C])%list)
  /\ (Py.str_in "exclude" (Py.lower (Py.strip raw)) = false ->
      Py.str_in "filter" (Py.lower (Py.strip raw)) = true ->
      loop_body conditions raw = (conditions ++ [fmt_eq C C])%list).
Proof.
  intros Hs Hpre Tb Hb TC HC Hws.
  apply truthy_iff in Tb, TC.
  assert (EC : Re.search col_pattern (Py.strip raw) = Some C).
  { rewrite Hs. now apply search_col_complete. }
  assert (EV : Re.search val_pattern (Py.strip raw) = Some C).
  { rewrite Hs.
    replace (pre ++ "column" ++ blanks ++ quoted C ++ ws)
      with ((pre ++ "column" ++ blanks) ++ quoted C ++ ws)
      by (now rewrite !app_assoc_s).
    now apply search_val_complete. }
  split; [exact EC|]. split; [exact EV|]. split.
  - intro HE. now apply loop_body_exclude.
  - intros HE HF. now apply loop_body_filter.
Qed.

Lemma lone_token_is_name_and_value_witness :
  loop_body [] lone_token_line
  = ["params['_source']['Status']!= 'Status'"].
Proof.
  assert (N1 : " " <> EmptyString) by discriminate.
  assert (N2 : "Status" <> EmptyString) by discriminate.
  destruct (lone_token_is_name_and_value
              [] lone_token_line "Exclude rows with " " " "Status"
              EmptyString eq_refl eq_refl N1 eq_refl N2 eq_refl eq_refl)
    as (_ & _ & H & _).
  exact (H eq_refl).
Defined.

(** ** Blocks without a double quote *)

Section NoQuote.

Lemma lstrip_all (p : ascii -> bool) (s : string) :
  all p s = true -> all p (Py.lstrip s) = true.
Proof.
  induction s as [|a s IH]; [reflexivity|]. cbn [all Py.lstrip].
  intro H. destruct (Py.is_space a).
  - apply andb_prop in H as [_ H]. now apply IH.
  - exact H.
Qed.

Lemma rstrip_all (p : ascii -> bool) (s : string) :
  all p s = true -> all p (Py.rstrip s) = true.
Proof.
  induction s as [|a s IH]; [reflexivity|]. cbn [all Py.rstrip].
  intro H. apply andb_prop in H as [Ha Hs]. specialize (IH Hs).
  destruct (Py.rstrip s) as [|b r].
  - destruct (Py.is_space a); [reflexivity|]. cbn [all]. now rewrite Ha.
  - cbn [all] in IH |- *. now rewrite Ha.
Qed.

Lemma strip_all (p : ascii -> bool) (s : string) :
  all p s = true -> all p (Py.strip s) = true.
Proof. intro H. unfold Py.strip. now apply rstrip_all, lstrip_all. Qed.

Lemma split_lines_all (p : ascii -> bool) (s line : string) :
  all p s = true -> In line (Py.split_lines s) -> all p line = true.
Proof.
  revert line. induction s as [|a s IH]; intros line H.
  - intros [<-|[]]. reflexivity.
  - cbn [all] in H. apply andb_prop in H as [Ha Hs].
    cbn [Py.split_lines]. destruct (Ascii.eqb a Py.LF).
    + intros [<-|Hl]; [reflexivity | now apply IH].
    + pose proof (split_lines_not_nil s) as N.
      destruct (Py.split_lines s) as [|l ls]; [now elim N|].
      intros [<-|Hl].
      * cbn [all]. rewrite Ha. apply (IH l Hs). now left.
      * apply (IH line Hs). now right.
Qed.

Lemma col_needs_dq (line : string) :
  all not_dq line = true -> Re.search col_pattern line = None.
Proof.
  intro H. destruct (Re.search col_pattern line) as [C|] eqn:E;
    [|reflexivity].
  destruct (search_col_sound _ _ E) as (pre & blanks & post & -> & _).
  rewrite quoted_app, !all_app in H. cbn [all] in H.
  rewrite dq_not_not_dq in H. cbn [andb] in H.
  now rewrite !andb_false_r in H.
Qed.

End NoQuote.

(** X15.  A block with no double quote in it, the empty block and a
    block of blank lines among them, gives no condition and compiles to
    the empty statement. *)
Theorem block_without_double_quote_is_empty (rule_text : string) :
  all not_dq rule_text = true ->
  conditions_of rule_text = [] /\ parse_rules rule_text = EmptyString.
Proof.
  intro H.
  assert (E : conditions_of rule_text = []).
  { apply unparsable_block_has_no_conditions. intros line Hl.
    rewrite loop_body_appended. unfold appended.
    rewrite col_needs_dq; [reflexivity|].
    apply strip_all. now apply (split_lines_all not_dq rule_text). }
  split; [exact E | now apply no_conditions_no_statement].
Qed.

Lemma block_without_double_quote_is_empty_witness :
  conditions_of unparsable_block = []
  /\ parse_rules ("   " ++ String Py.LF "  ") = EmptyString.
Proof.
  split.
  - exact (proj1 (block_without_double_quote_is_empty unparsable_block
                    eq_refl)).
  - exact (proj2 (block_without_double_quote_is_empty
                    ("   " ++ String Py.LF "  ") eq_refl)).
Defined.

(** ** Blanks around a label *)

Section Labels.

Lemma is_space_lower_char (a : ascii) :
  Py.is_space (Py.lower_char a) = Py.is_space a.
Proof. destruct a as [[] [] [] [] [] [] [] []]; reflexivity. Qed.

Lemma lower_lstrip (s : string) :
  Py.lower (Py.lstrip s) = Py.lstrip (Py.lower s).
Proof.
  induction s as [|a s IH]; [reflexivity|].
  cbn [Py.lstrip Py.lower]. rewrite is_space_lower_char.
  destruct (Py.is_space a); [exact IH | reflexivity].
Qed.

Lemma lower_rstrip (s : string) :
  Py.lower (Py.rstrip s) = Py.rstrip (Py.lower s).
Proof.
  induction s as [|a s IH]; [reflexivity|].
  cbn [Py.rstrip Py.lower]. rewrite <- IH, is_space_lower_char.
  destruct (Py.rstrip s) as [|b r]; cbn [Py.lower].
  - now destruct (Py.is_space a).
  - reflexivity.
Qed.

Lemma lower_strip (s : string) :
  Py.lower (Py.strip s) = Py.strip (Py.lower s).
Proof. unfold Py.strip. now rewrite lower_rstrip, lower_lstrip. Qed.

Lemma str_in_unfold (sub : string) (a : ascii) (s : string) :
  Py.str_in sub (String a s)
  = if String.prefix sub (String a s) then true else Py.str_in sub s.
Proof. reflexivity. Qed.

Lemma str_in_lstrip (h : ascii) (m s : string) :
  Py.is_space h = false ->
  Py.str_in (String h m) s = true ->
  Py.str_in (String h m) (Py.lstrip s) = true.
Proof.
  intros Hh. induction s as [|a s IH]; [discriminate|].
  cbn [Py.lstrip]. destruct (Py.is_space a) eqn:Sa; [|trivial].
  rewrite str_in_unfold. cbn [String.prefix].
  destruct (ascii_dec h a) as [->|_]; [congruence | exact IH].
Qed.

Lemma rstrip_keeps (y rest : string) (z : ascii) :
  Py.is_space z = false ->
  Py.rstrip (y ++ String z rest) = y ++ String z (Py.rstrip rest).
Proof.
  intro Hz. induction y as [|a y IH].
  - cbn [append Py.rstrip]. rewrite Hz. now destruct (Py.rstrip rest).
  - cbn [append Py.rstrip]. rewrite IH. now destruct y.
Qed.

Lemma str_in_empty (a : ascii) (m : string) :
  Py.str_in (String a m) EmptyString = false.
Proof. reflexivity. Qed.

Lemma str_in_rstrip (n0 : string) (z : ascii) (s : string) :
  Py.is_space z = false ->
  Py.str_in (n0 ++ String z EmptyString) s = true ->
  Py.str_in (n0 ++ String z EmptyString) (Py.rstrip s) = true.
Proof.
  intros Hz. set (n := n0 ++ String z EmptyString).
  assert (Hn : exists h m, n = String h m)
    by (unfold n; destruct n0; cbn; eauto).
  induction s as [|a s IH]; intro H.
  - destruct Hn as (h & m & E). rewrite E in H. discriminate H.
  - rewrite str_in_unfold in H.
    destruct (String.prefix n (String a s)) eqn:P.
    + destruct (prefix_split _ _ P) as [rest E]. rewrite E. unfold n.
      rewrite app_assoc_s. cbn [append].
      rewrite (rstrip_keeps n0 rest z Hz).
      replace (n0 ++ String z (Py.rstrip rest))
        with ((n0 ++ String z EmptyString) ++ Py.rstrip rest)
        by (now rewrite app_assoc_s).
      apply str_in_prefix, prefix_app.
    + specialize (IH H). cbn [Py.rstrip].
      destruct (Py.rstrip s) as [|b r] eqn:R.
      * destruct Hn as (h & m & E). rewrite E in IH. discriminate IH.
      * now apply str_in_cons.
Qed.

Lemma lstrip_decomp (s : string) :
  exists l, s = l ++ Py.lstrip s.
Proof.
  induction s as [|a s [l IH]]; [now exists EmptyString|].
  cbn [Py.lstrip]. destruct (Py.is_space a).
  - exists (String a l). cbn [append]. now rewrite <- IH.
  - now exists EmptyString.
Qed.

Lemma rstrip_decomp (s : string) :
  exists r, s = Py.rstrip s ++ r.
Proof.
  induction s as [|a s [r IH]]; [now exists EmptyString|].
  cbn [Py.rstrip]. destruct (Py.rstrip s) as [|b t] eqn:R.
  - destruct (Py.is_space a).
    + exists (String a s). reflexivity.
    + exists r. cbn [append] in IH |- *. now rewrite <- IH.
  - exists r. cbn [append] in IH |- *. now rewrite <- IH.
Qed.

Lemma str_in_app_r (sub s r : string) :
  Py.str_in sub s = true -> Py.str_in sub (s ++ r) = true.
Proof.
  intro H. destruct (str_in_split _ _ H) as (pre & post & ->).
  rewrite !app_assoc_s. apply str_in_app.
Qed.

Lemma str_in_of_strip (sub s : string) :
  Py.str_in sub (Py.strip s) = true -> Py.str_in sub s = true.
Proof.
  intro H. unfold Py.strip in H.
  destruct (lstrip_decomp s) as [l El].
  destruct (rstrip_decomp (Py.lstrip s)) as [r Er].
  rewrite El, Er. now apply str_in_true_app, str_in_app_r.
Qed.

(** Stripping does not change whether a string holds a word that neither
    starts nor ends with whitespace. *)
Lemma str_in_strip (h z : ascii) (m n0 s : string) :
  String h m = n0 ++ String z EmptyString ->
  Py.is_space h = false -> Py.is_space z = false ->
  Py.str_in (String h m) (Py.strip s) = Py.str_in (String h m) s.
Proof.
  intros E Hh Hz.
  destruct (Py.str_in (String h m) s) eqn:H.
  - unfold Py.strip. rewrite E. apply (str_in_rstrip n0 z _ Hz).
    rewrite <- E. now apply str_in_lstrip.
  - destruct (Py.str_in (String h m) (Py.strip s)) eqn:H'; [|reflexivity].
    apply str_in_of_strip in H'. congruence.
Qed.

End Labels.

(** X16.  Whitespace around the first cell of a row plays no part in the
    choice of the branch: the row is read as a numerator row exactly when
    its first cell, printed and lowercased, contains numerator, and as a
    denominator row exactly when it contains denominator and not
    numerator there. *)
Theorem label_test_ignores_strip (c0 : cell) (rest : list cell) :
  labels_numerator (normalized (c0 :: rest))
  = Py.str_in "numerator" (Py.lower (py_str c0))
  /\ labels_denominator (normalized (c0 :: rest))
     = negb (Py.str_in "numerator" (Py.lower (py_str c0)))
       && Py.str_in "denominator" (Py.lower (py_str c0)).
Proof.
  destruct c0 as [x| |x]; [|split; reflexivity|];
    cbn [normalized labels_numerator labels_denominator py_str];
    rewrite lower_strip;
    rewrite (str_in_strip "n" "r" "umerator" "numerato" _
               eq_refl eq_refl eq_refl);
    rewrite (str_in_strip "d" "r" "enominator" "denominato" _
               eq_refl eq_refl eq_refl);
    now split.
Qed.

(** ** Instances of the properties stated as conjunctions *)

Lemma conditions_of_joined_blocks_witness :
  conditions_of (exclude_line ++ String Py.LF filter_line)
  = ["params['_source']['A (ColA Name)']!= 'val1'";
     "params['_source']['B (ColB Name)'] == 'val2'"]
  /\ parse_rules (exclude_line ++ String Py.LF unparsable_block)
     = parse_rules exclude_line.
Proof.
  destruct (conditions_of_joined_blocks exclude_line filter_line)
    as [H _].
  destruct (conditions_of_joined_blocks exclude_line unparsable_block)
    as (_ & H2 & _).
  split; [rewrite H; reflexivity | exact (H2 eq_refl)].
Defined.

Lemma loop_body_is_two_keywords_witness :
  loop_body ["earlier"] no_keyword_line = ["earlier"]
  /\ loop_body ["earlier"] "    " = ["earlier"].
Proof.
  split.
  - exact (proj1 (proj2 (loop_body_is_two_keywords
                           ["earlier"] no_keyword_line))
             eq_refl eq_refl).
  - exact (proj2 (proj2 (loop_body_is_two_keywords ["earlier"] "    "))
             eq_refl).
Defined.
